(** * Stats Analysis dashboard: the analytical query set and its widgets

    A shallow embedding of [streamlit_app.py].  The program is a Streamlit
    script that builds eight SQL texts around a user-named table, sends each
    to DuckDB and renders the resulting data frame as a chart, a metric and
    a table.

    - [Engine]     relational operators with the meaning DuckDB gives them
                   (GROUP BY, JOIN, aggregates, window frame, ORDER BY);
    - [Queries]    the eight entries of the [SQL] dictionary, operator by
                   operator;
    - [Texts]      the SQL strings themselves, as the f-strings build them;
    - [Frames]     data frames and the pandas operations the widgets use;
    - [App]        the script body: eight widgets run in sequence.

    [credit] is an integer amount.  A double is given by the number it was
    computed as; it is rounded to the nearest float where its digits are
    shown.  A division by zero gives what IEEE arithmetic gives.  The
    script sees the engine as a connection that answers each text with a
    value or an exception; [execute] is the connection to a file whose
    columns have the types the queries expect. *)

From Stdlib Require Import List String Ascii ZArith QArith Qabs Bool Lia.
From Stdlib Require Import Permutation Sorted DecimalString.
Import ListNotations.

Open Scope string_scope.
Open Scope Z_scope.

(** ** Data model *)

(** One row of the transactions table.  [date] is DuckDB's [date_t]: the
    number of days since 1970-01-01.  [credit] is an exact numeric. *)
Record TransactionRecord := mkTxn {
  account : string;
  type : string;
  date : Z;
  credit : Z
}.

Definition Table := list TransactionRecord.

(** Day number of a proleptic Gregorian calendar date. *)
Definition date_of_ymd (y m d : Z) : Z :=
  let y' := if m <=? 2 then y - 1 else y in
  let era := y' / 400 in
  let yoe := y' - era * 400 in
  let mp := (m + 9) mod 12 in
  let doy := (153 * mp + 2) / 5 + d - 1 in
  let doe := yoe * 365 + yoe / 4 - yoe / 100 + doy in
  era * 146097 + doe - 719468.

(** ** Relational operators *)

Module Engine.

Section Operators.
Context {R S K : Type}.

(** [SELECT DISTINCT]: one representative per value. *)
Definition DISTINCT (dec : forall x y : K, {x = y} + {x <> y}) (l : list K) : list K :=
  nodup dec l.

(** [GROUP BY key]: one group per distinct key value, holding the rows
    that carry it.  Every group has at least one row. *)
Definition GROUP_BY (dec : forall x y : K, {x = y} + {x <> y})
    (key : R -> K) (rows : list R) : list (K * list R) :=
  map (fun k => (k, filter (fun r => if dec (key r) k then true else false) rows))
      (DISTINCT dec (map key rows)).

(** [l JOIN r ON on]: inner join, as nested loops. *)
Definition JOIN (on : R -> S -> bool) (l : list R) (r : list S) : list (R * S) :=
  flat_map (fun a => map (pair a) (filter (on a) r)) l.

(** [ORDER BY]: a stable insertion of every row, [leb] being the order of
    the sort key.  Rows with equal keys come out in the order the engine
    met them, which SQL leaves open; see [ordered_by]. *)
Fixpoint insert_by (leb : R -> R -> bool) (x : R) (l : list R) : list R :=
  match l with
  | [] => [x]
  | y :: l' => if leb x y then x :: l else y :: insert_by leb x l'
  end.

Definition ORDER_BY (leb : R -> R -> bool) (rows : list R) : list R :=
  fold_right (insert_by leb) [] rows.

(** What SQL promises of [ORDER BY]: the same rows, sorted on the key. *)
Definition ordered_by (leb : R -> R -> bool) (rows out : list R) : Prop :=
  Permutation rows out /\ Sorted (fun a b => leb a b = true) out.
End Operators.

(** [SUM] over the rows of a group or of a window frame.  Both always hold a
    row, so the NULL that SUM gives on no rows does not arise there. *)
Definition SUM (xs : list Z) : Z := fold_right Z.add 0 xs.

(** [SUM] as a scalar subquery: NULL on no rows. *)
Definition SUM_scalar (xs : list Z) : option Z :=
  match xs with
  | [] => None
  | _ => Some (SUM xs)
  end.

(** [MIN]: NULL on no rows. *)
Definition MIN (xs : list Z) : option Z :=
  match xs with
  | [] => None
  | x :: xs' => Some (fold_right Z.min x xs')
  end.

(** [COUNT( * )]. *)
Definition COUNT {A} (xs : list A) : Z := Z.of_nat (List.length xs).

(** A value of an IEEE double.  A finite one is given by the number it was
    computed as, a quotient or a product of integers; the float is the one
    nearest to that number ([binary64] below), and the arithmetic here is
    done on the numbers themselves. *)
Inductive Double :=
  | Finite (q : Q)
  | PosInf
  | NegInf
  | NaN.

(** A double column as the script reads it: [None] is a missing value.
    The engine's NULL and its NaN both arrive in pandas as NaN, which
    [pd.isna] accepts, so the two are one here. *)
Definition NullableDouble := option Double.

(** [AVG] of integers is a double; NULL on no rows. *)
Definition AVG (xs : list Z) : NullableDouble :=
  match xs with
  | [] => None
  | _ => Some (Finite (inject_Z (SUM xs) / inject_Z (COUNT xs))%Q)
  end.

(** [x > y] where [y] may be NULL: a NULL comparison does not pass WHERE. *)
Definition gt_nullable (x : Z) (y : option Z) : bool :=
  match y with
  | Some y' => y' <? x
  | None => false
  end.

(** [x / y] in doubles.  Nothing is raised on a zero divisor: as IEEE has
    it, a positive number over zero is infinity, a negative one minus
    infinity, and zero over zero is NaN.  A NULL divisor gives NULL. *)
Definition divide (x : Q) (y : option Z) : NullableDouble :=
  match y with
  | Some y' =>
      if y' =? 0
      then (if 0 <? Qnum x then Some PosInf
            else if Qnum x <? 0 then Some NegInf
            else None)
      else Some (Finite (x / inject_Z y')%Q)
  | None => None
  end.

(** [d * 100] in doubles. *)
Definition times_100 (d : NullableDouble) : NullableDouble :=
  match d with
  | Some (Finite q) => Some (Finite (q * 100)%Q)
  | other => other
  end.

End Engine.

(** ** The eight queries *)

Module Queries.
Import Engine.

(** [type IN ('FME Licenses', 'FME Subscription')] *)
Definition is_core (r : TransactionRecord) : bool :=
  (type r =? "FME Licenses")%string || (type r =? "FME Subscription")%string.

(** Output row of the three funnel queries. *)
Record FunnelRow := mkFunnel {
  f_account : string;
  total_license_subscription_spend : Z;
  total_follow_up_spend : Z
}.

(** CTE [FirstInitialPurchase]. *)
Definition FirstInitialPurchase (T : Table) : list (string * option Z) :=
  map (fun g => (fst g, MIN (map date (snd g))))
      (GROUP_BY string_dec account (filter is_core T)).

(** CTE [InitialSpend]. *)
Definition InitialSpend (T : Table) : list (string * Z) :=
  map (fun g => (fst g, SUM (map credit (snd g))))
      (GROUP_BY string_dec account (filter is_core T)).

(** CTE [FollowUpConsultingSpend] / [FollowUpTrainingSpend] /
    [FollowUpEsRiSpend]: the three differ in the follow-up type only. *)
Definition FollowUpSpend (follow : string) (T : Table) : list (string * Z) :=
  map (fun g => (fst g, SUM (map (fun p => credit (fst p)) (snd g))))
      (GROUP_BY string_dec (fun p : TransactionRecord * (string * option Z) => fst (snd p))
         (filter (fun p => (type (fst p) =? follow)%string && gt_nullable (date (fst p)) (snd (snd p)))
            (JOIN (fun ad fip => (account ad =? fst fip)%string) T (FirstInitialPurchase T)))).

(** The main SELECT of a funnel query. *)
Definition funnel (follow : string) (T : Table) : list FunnelRow :=
  ORDER_BY (fun r1 r2 => (f_account r1 <=? f_account r2)%string)
    (map (fun p => mkFunnel (fst (fst p)) (snd (fst p)) (snd (snd p)))
       (JOIN (fun i f => (fst i =? fst f)%string) (InitialSpend T) (FollowUpSpend follow T))).

(** [SQL["consulting"]], [SQL["training"]], [SQL["esri"]]. *)
Definition consulting : Table -> list FunnelRow := funnel "FME Consulting".
Definition training : Table -> list FunnelRow := funnel "FME Training".
Definition esri : Table -> list FunnelRow := funnel "Esri Consulting".

(** Output row of [SQL["revcon"]]. *)
Record RevconRow := mkRevcon {
  r_account : string;
  total_revenue : Z;
  cumulative_revenue : Z;
  cumulative_percentage : NullableDouble
}.

(** CTE [CustomerTotalRevenue]. *)
Definition CustomerTotalRevenue (T : Table) : list (string * Z) :=
  map (fun g => (fst g, SUM (map credit (snd g))))
      (GROUP_BY string_dec account T).

(** The frame of [SUM(total_revenue) OVER (ORDER BY total_revenue DESC)].
    No frame is written, so it is SQL's default, RANGE BETWEEN UNBOUNDED
    PRECEDING AND CURRENT ROW: the rows that sort before the current row
    together with its peers, the rows of equal [total_revenue]. *)
Definition window_frame (ctr : list (string * Z)) (cur : string * Z) : list (string * Z) :=
  filter (fun r => snd cur <=? snd r) ctr.

(** CTE [RunningTotal]. *)
Definition RunningTotal (T : Table) : list (string * Z * Z) :=
  map (fun r => (fst r, snd r, SUM (map snd (window_frame (CustomerTotalRevenue T) r))))
      (CustomerTotalRevenue T).

(** [(SELECT SUM(total_revenue) FROM CustomerTotalRevenue)] *)
Definition grand_total (T : Table) : option Z :=
  SUM_scalar (map snd (CustomerTotalRevenue T)).

(** The main SELECT of [SQL["revcon"]], before its ORDER BY. *)
Definition revcon_rows (T : Table) : list RevconRow :=
  map (fun r =>
         mkRevcon (fst (fst r)) (snd (fst r)) (snd r)
           (times_100 (divide (inject_Z (snd r)) (grand_total T))))
      (RunningTotal T).

(** [ORDER BY total_revenue DESC] *)
Definition by_total_revenue_desc (r1 r2 : RevconRow) : bool :=
  total_revenue r2 <=? total_revenue r1.

(** [SQL["revcon"]], with ties in the order [ORDER_BY] leaves them. *)
Definition revcon (T : Table) : list RevconRow :=
  ORDER_BY by_total_revenue_desc (revcon_rows T).

(** Every output the SQL text allows: the ORDER BY names no second key, so
    rows of equal [total_revenue] may come in any order. *)
Definition revcon_output (T : Table) (out : list RevconRow) : Prop :=
  ordered_by by_total_revenue_desc (revcon_rows T) out.

(** CTE [CoreProductCustomers]. *)
Definition CoreProductCustomers (T : Table) : list string :=
  DISTINCT string_dec (map account (filter is_core T)).

(** CTE [AttachServiceCustomers]. *)
Definition AttachServiceCustomers (T : Table) : list string :=
  DISTINCT string_dec
    (map account (filter (fun r => (type r =? "FME Training")%string) T)).

(** [SQL["attach"]]: one row, one column. *)
Definition attach (T : Table) : NullableDouble :=
  divide
    (inject_Z
       (COUNT (filter (fun a => existsb (String.eqb a) (CoreProductCustomers T))
                      (AttachServiceCustomers T))) * 100)%Q
    (Some (COUNT (CoreProductCustomers T))).

(** Output row of [SQL["basket"]]. *)
Record BasketRow := mkBasket {
  service_1 : string;
  service_2 : string;
  number_of_customers : Z
}.

Definition string_pair_dec (x y : string * string) : {x = y} + {x <> y}.
Proof. decide equality; apply string_dec. Defined.

Arguments string_pair_dec : simpl never.

(** The main SELECT of [SQL["basket"]], before its ORDER BY. *)
Definition basket_rows (T : Table) : list BasketRow :=
  map (fun g =>
         mkBasket (fst (fst g)) (snd (fst g))
           (COUNT (DISTINCT string_dec (map (fun p => account (fst p)) (snd g)))))
      (GROUP_BY string_pair_dec
         (fun p : TransactionRecord * TransactionRecord => (type (fst p), type (snd p)))
         (JOIN (fun a1 a2 => (account a1 =? account a2)%string && (type a1 <? type a2)%string)
               T T)).

(** [ORDER BY number_of_customers DESC] *)
Definition by_customers_desc (r1 r2 : BasketRow) : bool :=
  number_of_customers r2 <=? number_of_customers r1.

(** [SQL["basket"]], with ties in the order [ORDER_BY] leaves them. *)
Definition basket (T : Table) : list BasketRow :=
  ORDER_BY by_customers_desc (basket_rows T).

Definition basket_output (T : Table) (out : list BasketRow) : Prop :=
  ordered_by by_customers_desc (basket_rows T) out.

(** CTE [FirstPurchase]. *)
Definition FirstPurchase (T : Table) : list (string * option Z) :=
  map (fun g => (fst g, MIN (map date (snd g))))
      (GROUP_BY string_dec account (filter is_core T)).

(** CTE [FirstFollowUp]. *)
Definition FirstFollowUp (T : Table) : list (string * option Z) :=
  map (fun g => (fst g, MIN (map (fun p => date (fst p)) (snd g))))
      (GROUP_BY string_dec (fun p : TransactionRecord * (string * option Z) => account (fst p))
         (filter (fun p => (type (fst p) =? "FME Training")%string
                           && gt_nullable (date (fst p)) (snd (snd p)))
            (JOIN (fun t fp => (account t =? fst fp)%string) T (FirstPurchase T)))).

(** [first_training_date - first_date]: NULL if either side is. *)
Definition minus_nullable (x y : option Z) : option Z :=
  match x, y with
  | Some a, Some b => Some (a - b)
  | _, _ => None
  end.

(** AVG skips NULL arguments. *)
Definition non_null {A} (xs : list (option A)) : list A :=
  flat_map (fun x => match x with Some a => [a] | None => [] end) xs.

(** [SQL["timetosvc"]]: one row, one column.  DATE minus DATE is a whole
    number of days, and AVG of those a double. *)
Definition timetosvc (T : Table) : NullableDouble :=
  AVG (non_null
         (map (fun p => minus_nullable (snd (snd p)) (snd (fst p)))
              (JOIN (fun fp ff => (fst fp =? fst ff)%string)
                    (FirstPurchase T) (FirstFollowUp T)))).

(** Output row of [SQL["trends"]]. *)
Record TrendRow := mkTrend {
  sales_month : string;
  t_type : string;
  monthly_revenue : Z
}.

(** Calendar year and month of a day number. *)
Definition year_month_of_date (z : Z) : Z * Z :=
  let z' := z + 719468 in
  let era := z' / 146097 in
  let doe := z' - era * 146097 in
  let yoe := (doe - doe / 1460 + doe / 36524 - doe / 146096) / 365 in
  let doy := doe - (365 * yoe + yoe / 4 - yoe / 100) in
  let mp := (5 * doy + 2) / 153 in
  let m := if mp <? 10 then mp + 3 else mp - 9 in
  let y := yoe + era * 400 in
  (if m <=? 2 then y + 1 else y, m).

Definition decimal (z : Z) : string :=
  NilZero.string_of_uint (N.to_uint (Z.to_N z)).

(** Left-pads a decimal with zeros to [w] characters. *)
Definition zero_pad (w : nat) (s : string) : string :=
  string_of_list_ascii (repeat "0"%char (w - String.length s)) ++ s.

(** [strftime(date, '%Y-%m')] for years 1 to 9999. *)
Definition strftime_Y_m (d : Z) : string :=
  let ym := year_month_of_date d in
  zero_pad 4 (decimal (fst ym)) ++ "-" ++ zero_pad 2 (decimal (snd ym)).

Definition trend_leb (r1 r2 : TrendRow) : bool :=
  match (sales_month r1 ?= sales_month r2)%string with
  | Lt => true
  | Eq => (t_type r1 <=? t_type r2)%string
  | Gt => false
  end.

(** [SQL["trends"]]. *)
Definition trends (T : Table) : list TrendRow :=
  ORDER_BY trend_leb
    (map (fun g => mkTrend (fst (fst g)) (snd (fst g)) (SUM (map credit (snd g))))
         (GROUP_BY string_pair_dec (fun r => (strftime_Y_m (date r), type r)) T)).

End Queries.

(** ** The SQL texts *)

Module Texts.

(** Keys of the [SQL] dictionary, in the order the script runs them. *)
Inductive Key :=
  | K_consulting | K_training | K_esri | K_revcon
  | K_attach | K_basket | K_timetosvc | K_trends.

Definition all_keys : list Key :=
  [K_consulting; K_training; K_esri; K_revcon; K_attach; K_basket; K_timetosvc; K_trends].

(** [SQL = { ... }]: each f-string with [{T}] spliced in as it stands. *)
Definition SQL (T : string) (k : Key) : string :=
  match k with
  | K_consulting =>
"
WITH FirstInitialPurchase AS (
  SELECT account, MIN(date) AS first_initial_date
  FROM " ++ T ++ "
  WHERE type IN ('FME Licenses', 'FME Subscription')
  GROUP BY account
), InitialSpend AS (
  SELECT account, SUM(credit) AS total_license_subscription_spend
  FROM " ++ T ++ "
  WHERE type IN ('FME Licenses', 'FME Subscription')
  GROUP BY account
), FollowUpConsultingSpend AS (
  SELECT fip.account, SUM(ad.credit) AS total_fme_consulting_spend
  FROM " ++ T ++ " AS ad
  JOIN FirstInitialPurchase AS fip ON ad.account = fip.account
  WHERE ad.type = 'FME Consulting' AND ad.date > fip.first_initial_date
  GROUP BY fip.account
)
SELECT i.account, i.total_license_subscription_spend, f.total_fme_consulting_spend
FROM InitialSpend AS i
JOIN FollowUpConsultingSpend AS f ON i.account = f.account
ORDER BY i.account;"
  | K_training =>
"
WITH FirstInitialPurchase AS (
  SELECT account, MIN(date) AS first_initial_date
  FROM " ++ T ++ "
  WHERE type IN ('FME Licenses', 'FME Subscription')
  GROUP BY account
), InitialSpend AS (
  SELECT account, SUM(credit) AS total_license_subscription_spend
  FROM " ++ T ++ "
  WHERE type IN ('FME Licenses', 'FME Subscription')
  GROUP BY account
), FollowUpTrainingSpend AS (
  SELECT fip.account, SUM(ad.credit) AS total_fme_training_spend
  FROM " ++ T ++ " AS ad
  JOIN FirstInitialPurchase AS fip ON ad.account = fip.account
  WHERE ad.type = 'FME Training' AND ad.date > fip.first_initial_date
  GROUP BY fip.account
)
SELECT i.account, i.total_license_subscription_spend, f.total_fme_training_spend
FROM InitialSpend AS i
JOIN FollowUpTrainingSpend AS f ON i.account = f.account
ORDER BY i.account;"
  | K_esri =>
"
WITH FirstInitialPurchase AS (
  SELECT account, MIN(date) AS first_initial_date
  FROM " ++ T ++ "
  WHERE type IN ('FME Licenses', 'FME Subscription')
  GROUP BY account
), InitialSpend AS (
  SELECT account, SUM(credit) AS total_license_subscription_spend
  FROM " ++ T ++ "
  WHERE type IN ('FME Licenses', 'FME Subscription')
  GROUP BY account
), FollowUpEsRiSpend AS (
  SELECT fip.account, SUM(ad.credit) AS total_esri_consulting_spend
  FROM " ++ T ++ " AS ad
  JOIN FirstInitialPurchase AS fip ON ad.account = fip.account
  WHERE ad.type = 'Esri Consulting' AND ad.date > fip.first_initial_date
  GROUP BY fip.account
)
SELECT i.account, i.total_license_subscription_spend, f.total_esri_consulting_spend
FROM InitialSpend AS i
JOIN FollowUpEsRiSpend AS f ON i.account = f.account
ORDER BY i.account;"
  | K_revcon =>
"
WITH CustomerTotalRevenue AS (
  SELECT account, SUM(credit) AS total_revenue
  FROM " ++ T ++ "
  GROUP BY account
), RunningTotal AS (
  SELECT account, total_revenue,
         SUM(total_revenue) OVER (ORDER BY total_revenue DESC) AS cumulative_revenue
  FROM CustomerTotalRevenue
)
SELECT account, total_revenue, cumulative_revenue,
       cumulative_revenue / (SELECT SUM(total_revenue) FROM CustomerTotalRevenue) * 100 AS cumulative_percentage
FROM RunningTotal
ORDER BY total_revenue DESC;"
  | K_attach =>
"
WITH CoreProductCustomers AS (
  SELECT DISTINCT account FROM " ++ T ++ "
  WHERE type IN ('FME Licenses', 'FME Subscription')
), AttachServiceCustomers AS (
  SELECT DISTINCT account FROM " ++ T ++ "
  WHERE type = 'FME Training'
)
SELECT (SELECT COUNT(*) FROM AttachServiceCustomers WHERE account IN (SELECT account FROM CoreProductCustomers)) * 100.0 /
       (SELECT COUNT(*) FROM CoreProductCustomers) AS training_attach_rate_percentage;"
  | K_basket =>
"
SELECT a1.type AS service_1, a2.type AS service_2, COUNT(DISTINCT a1.account) AS number_of_customers
FROM " ++ T ++ " a1
JOIN " ++ T ++ " a2 ON a1.account = a2.account AND a1.type < a2.type
GROUP BY service_1, service_2
ORDER BY number_of_customers DESC;"
  | K_timetosvc =>
"
WITH FirstPurchase AS (
  SELECT account, MIN(date) AS first_date
  FROM " ++ T ++ "
  WHERE type IN ('FME Licenses', 'FME Subscription')
  GROUP BY account
), FirstFollowUp AS (
  SELECT t.account, MIN(t.date) AS first_training_date
  FROM " ++ T ++ " t
  JOIN FirstPurchase fp ON t.account = fp.account
  WHERE t.type = 'FME Training' AND t.date > fp.first_date
  GROUP BY t.account
)
SELECT AVG(first_training_date - first_date) AS avg_days_to_training
FROM FirstPurchase fp
JOIN FirstFollowUp ff ON fp.account = ff.account;"
  | K_trends =>
"
SELECT strftime(date, '%Y-%m') AS sales_month, type, SUM(credit) AS monthly_revenue
FROM " ++ T ++ "
GROUP BY sales_month, type
ORDER BY sales_month, type;"
  end.

End Texts.

(** ** Data frames and what pandas does to them *)

Module Frames.
Import Engine Queries.

(** A value read from a data frame, by the Python type the script meets. *)
Inductive Scalar :=
  | NA                       (** None, NaT, a missing cell *)
  | Text (s : string)        (** str *)
  | Int (z : Z)              (** int64 *)
  | Float (d : Double)       (** float64 *)
  | Timedelta (micros : Z).  (** pandas Timedelta, as a count of microseconds *)

Record DataFrame := mkDF {
  columns : list string;
  data : list (list Scalar)
}.

(** [df.empty]: an axis of length zero. *)
Definition empty (df : DataFrame) : bool :=
  match columns df, data df with
  | [], _ => true
  | _, [] => true
  | _, _ => false
  end.

Fixpoint index_of (c : string) (cols : list string) : option nat :=
  match cols with
  | [] => None
  | c' :: cols' => if (c =? c')%string then Some O else option_map S (index_of c cols')
  end.

(** [c in df.columns] *)
Definition has_column (c : string) (df : DataFrame) : bool :=
  match index_of c (columns df) with Some _ => true | None => false end.

(** [df.loc[0, c]]; [None] stands for the KeyError. *)
Definition loc0 (c : string) (df : DataFrame) : option Scalar :=
  match index_of c (columns df), data df with
  | Some i, row :: _ => nth_error row i
  | _, _ => None
  end.

Definition nullable_float (v : NullableDouble) : Scalar :=
  match v with Some d => Float d | None => NA end.

(** [.df()] on each query's result. *)
Definition df_funnel (spend : string) (rows : list FunnelRow) : DataFrame :=
  mkDF ["account"; "total_license_subscription_spend"; spend]
       (map (fun r => [Text (f_account r);
                       Int (total_license_subscription_spend r);
                       Int (total_follow_up_spend r)]) rows).

Definition df_revcon (rows : list RevconRow) : DataFrame :=
  mkDF ["account"; "total_revenue"; "cumulative_revenue"; "cumulative_percentage"]
       (map (fun r => [Text (r_account r); Int (total_revenue r);
                       Int (cumulative_revenue r);
                       nullable_float (cumulative_percentage r)]) rows).

Definition df_scalar (name : string) (v : NullableDouble) : DataFrame :=
  mkDF [name] [[nullable_float v]].

Definition df_basket (rows : list BasketRow) : DataFrame :=
  mkDF ["service_1"; "service_2"; "number_of_customers"]
       (map (fun r => [Text (service_1 r); Text (service_2 r);
                       Int (number_of_customers r)]) rows).

(** The basket frame once the script has added its [pair] column. *)
Definition df_basket_pair (rows : list (BasketRow * string)) : DataFrame :=
  mkDF ["service_1"; "service_2"; "number_of_customers"; "pair"]
       (map (fun r => [Text (service_1 (fst r)); Text (service_2 (fst r));
                       Int (number_of_customers (fst r)); Text (snd r)]) rows).

Definition df_trends (rows : list TrendRow) : DataFrame :=
  mkDF ["sales_month"; "type"; "monthly_revenue"]
       (map (fun r => [Text (sales_month r); Text (t_type r);
                       Int (monthly_revenue r)]) rows).

(** [df.sort_values(col, ascending=False)].  pandas sorts with quicksort
    here, which promises nothing about rows of equal key; this is the
    outcome that keeps them in place. *)
Definition sort_values_desc {R} (key : R -> Z) (rows : list R) : list R :=
  ORDER_BY (fun a b => key b <=? key a) rows.

(** [df.head(int(n))]; the sidebar keeps [n] at 5 or more. *)
Definition head {R} (n : Z) (rows : list R) : list R :=
  firstn (Z.to_nat n) rows.

(** ** Number formatting *)

(** Nearest integer, ties to the even one. *)
Definition round_half_even (q : Q) : Z :=
  let n := Qnum q in
  let d := Zpos (Qden q) in
  let fl := n / d in
  let r2 := 2 * (n mod d) in
  if r2 <? d then fl
  else if d <? r2 then fl + 1
  else if Z.even fl then fl else fl + 1.

(** A comma after every third digit, on the digits from the right. *)
Fixpoint commas (rev_digits : list ascii) : list ascii :=
  match rev_digits with
  | a :: b :: c :: ((_ :: _) as more) => a :: b :: c :: ","%char :: commas more
  | _ => rev_digits
  end.

Definition thousands (s : string) : string :=
  string_of_list_ascii (rev (commas (rev (list_ascii_of_string s)))).

(** The format spec [,.2f] on a finite float of value [q]. *)
Definition format_comma_2f (q : Q) : string :=
  let c := round_half_even (Qabs q * 100) in
  (if Qnum q <? 0 then "-" else "")
    ++ thousands (decimal (c / 100)) ++ "." ++ zero_pad 2 (decimal (c mod 100)).

(** The whole part of the binary logarithm of a positive rational. *)
Definition floor_log2 (q : Q) : Z :=
  let e := Z.log2 (Qnum q) - Z.log2 (Zpos (Qden q)) in
  if Qle_bool (2 ^ e) q then e else e - 1.

(** The float a real number is stored as: the nearest one with 53
    significant bits, ties to the even significand, no exponent below that
    of the subnormal numbers, an infinity past the largest float. *)
Definition binary64 (q : Q) : Double :=
  if Qeq_bool q 0 then Finite 0
  else
    let a := Qabs q in
    let s := Z.max (floor_log2 a - 52) (-1074) in
    let r := (inject_Z (round_half_even (a / 2 ^ s)) * 2 ^ s)%Q in
    if Qle_bool (2 ^ 1024) r then (if Qnum q <? 0 then NegInf else PosInf)
    else Finite (Qred (if Qnum q <? 0 then - r else r)).

(** The format spec [,.2f] on any float.  The digits are those of the float
    as it is stored. *)
Definition format_float (d : Double) : string :=
  match d with
  | Finite q =>
      match binary64 q with
      | Finite r => format_comma_2f r
      | PosInf => "inf"
      | NegInf => "-inf"
      | NaN => "nan"
      end
  | PosInf => "inf"
  | NegInf => "-inf"
  | NaN => "nan"
  end.

(** The dash both metric widgets show for no value. *)
Definition no_data : string :=
  String (ascii_of_nat 226) (String (ascii_of_nat 128) (String (ascii_of_nat 148) EmptyString)).

(** ** Reading a scalar *)

(** [pd.isna] *)
Definition isna (v : Scalar) : bool :=
  match v with
  | NA => true
  | Float NaN => true
  | _ => false
  end.

Definition is_digit (c : ascii) : bool :=
  let n := nat_of_ascii c in (48 <=? n)%nat && (n <=? 57)%nat.

(** ASCII white space, as [str.split] and [float] see it. *)
Definition is_space (c : ascii) : bool :=
  let n := nat_of_ascii c in
  (n =? 32)%nat || ((9 <=? n)%nat && (n <=? 13)%nat) || ((28 <=? n)%nat && (n <=? 31)%nat).

Definition lower (c : ascii) : ascii :=
  let n := nat_of_ascii c in
  if (65 <=? n)%nat && (n <=? 90)%nat then ascii_of_nat (n + 32) else c.

Fixpoint digits_value (acc : Z) (ds : list ascii) : option Z :=
  match ds with
  | [] => Some acc
  | d :: ds' =>
      if is_digit d
      then digits_value (10 * acc + Z.of_nat (nat_of_ascii d - 48)) ds'
      else None
  end.

(** The longest run of digits at the front, and what follows it.  One
    underscore may stand between two digits. *)
Fixpoint digitpart (after_digit : bool) (cs : list ascii) : list ascii * list ascii :=
  match cs with
  | c :: cs' =>
      if is_digit c then let r := digitpart true cs' in (c :: fst r, snd r)
      else if after_digit && Ascii.eqb c "_"
      then match cs' with
           | d :: _ => if is_digit d then digitpart false cs' else ([], cs)
           | [] => ([], cs)
           end
      else ([], cs)
  | [] => ([], [])
  end.

(** What follows an [e]: a sign maybe, digits, and nothing more. *)
Definition exponent (cs : list ascii) : option Z :=
  let signed :=
    match cs with
    | "-"%char :: r => (true, r)
    | "+"%char :: r => (false, r)
    | _ => (false, cs)
    end in
  let dp := digitpart false (snd signed) in
  match fst dp, snd dp with
  | _ :: _, [] =>
      option_map (fun n => if fst signed then - n else n) (digits_value 0 (fst dp))
  | _, _ => None
  end.

(** [m] times ten to the [k]. *)
Definition scale10 (m k : Z) : Q :=
  if 0 <=? k then inject_Z (m * 10 ^ k) else (inject_Z m / inject_Z (10 ^ (- k)))%Q.

(** An unsigned number: digits with maybe a point among, before or after
    them, then maybe an exponent. *)
Definition unsigned_float (cs : list ascii) : option Q :=
  let ip := digitpart false cs in
  let fp :=
    match snd ip with
    | "."%char :: r => digitpart false r
    | r => ([], r)
    end in
  match (fst ip ++ fst fp)%list with
  | [] => None
  | ds =>
      let e :=
        match snd fp with
        | [] => Some 0
        | c :: r => if Ascii.eqb (lower c) "e" then exponent r else None
        end in
      match digits_value 0 ds, e with
      | Some m, Some k => Some (scale10 m (k - Z.of_nat (List.length (fst fp))))
      | _, _ => None
      end
  end.

(** [float(s)] for a string without blanks around it; [None] is the
    ValueError.  The value is the number written, not yet rounded. *)
Definition float_of_token (s : string) : option Double :=
  let cs := list_ascii_of_string s in
  let signed :=
    match cs with
    | "-"%char :: r => (true, r)
    | "+"%char :: r => (false, r)
    | _ => (false, cs)
    end in
  let word := string_of_list_ascii (map lower (snd signed)) in
  if (word =? "inf")%string || (word =? "infinity")%string
  then Some (if fst signed then NegInf else PosInf)
  else if (word =? "nan")%string then Some NaN
  else option_map (fun q => Finite (if fst signed then Qopp q else q))
                  (unsigned_float (snd signed)).

Fixpoint drop_spaces (cs : list ascii) : list ascii :=
  match cs with
  | c :: cs' => if is_space c then drop_spaces cs' else cs
  | [] => []
  end.

Fixpoint take_word (cs : list ascii) : list ascii :=
  match cs with
  | c :: cs' => if is_space c then [] else c :: take_word cs'
  | [] => []
  end.

(** [s.split()[0]]; [None] is the IndexError on a blank string. *)
Definition first_word (s : string) : option string :=
  match take_word (drop_spaces (list_ascii_of_string s)) with
  | [] => None
  | w => Some (string_of_list_ascii w)
  end.

(** [float(v)]; [None] stands for the exception. *)
Definition float_of_scalar (v : Scalar) : option Double :=
  match v with
  | Float d => Some d
  | Int z => Some (Finite (inject_Z z))
  | Text s => float_of_token (string_of_list_ascii
                (rev (drop_spaces (rev (drop_spaces (list_ascii_of_string s))))))
  | NA => None
  | Timedelta _ => None
  end.

(** [val.days] of a Timedelta: the whole days, rounded down. *)
Definition days (micros : Z) : Z := micros / 86400000000.

(** [float(str(val).split()[0])] for a value without a [days] attribute.  A
    number prints as one word that reads back as itself; [None] prints as a
    word that is no number. *)
Definition float_of_first_word (v : Scalar) : option Double :=
  match v with
  | Float d => Some d
  | Int z => Some (Finite (inject_Z z))
  | Text s => match first_word s with Some w => float_of_token w | None => None end
  | NA => None
  | Timedelta _ => None
  end.

End Frames.

(** ** The script *)

Module App.
Import Engine Queries Frames Texts.

(** A table as the database file stores it: the columns it has, and its
    rows.  A field of a row whose column is absent is never read. *)
Record StoredTable := mkStored {
  stored_columns : list string;
  stored_rows : Table
}.

(** The catalog of the opened file: tables by name. *)
Definition Database := list (string * StoredTable).

Definition lowercase (s : string) : string :=
  string_of_list_ascii (map lower (list_ascii_of_string s)).

(** The engine matches the names of tables and columns without regard to
    case. *)
Definition same_identifier (a b : string) : bool :=
  (lowercase a =? lowercase b)%string.

Fixpoint find_table (T : string) (db : Database) : option StoredTable :=
  match db with
  | [] => None
  | (n, st) :: db' => if same_identifier T n then Some st else find_table T db'
  end.

(** What [con.execute] raises. *)
Inductive Exn :=
  | CatalogError (table : string)   (** no table of that name *)
  | BinderError (column : string)   (** a referenced column is absent *)
  | EngineError (message : string). (** anything else the engine reports *)

(** The columns each SQL text refers to, in the order the engine binds
    them: the common table expressions as the final SELECT reaches them, and
    in each SELECT the WHERE clause, the GROUP BY clause, then the select
    list. *)
Definition referenced (k : Key) : list string :=
  match k with
  | K_consulting | K_training | K_esri => ["type"; "account"; "credit"; "date"]
  | K_revcon => ["account"; "credit"]
  | K_attach => ["type"; "account"]
  | K_basket => ["account"; "type"]
  | K_timetosvc => ["type"; "account"; "date"]
  | K_trends => ["date"; "type"; "credit"]
  end.

(** The Python value [run_sql] returns for each key. *)
Definition Result (k : Key) : Type :=
  match k with
  | K_consulting | K_training | K_esri => list FunnelRow
  | K_revcon => list RevconRow
  | K_attach | K_timetosvc => NullableDouble
  | K_basket => list BasketRow
  | K_trends => list TrendRow
  end.

Definition evaluate (k : Key) : Table -> Result k :=
  match k with
  | K_consulting => consulting
  | K_training => training
  | K_esri => esri
  | K_revcon => revcon
  | K_attach => attach
  | K_basket => basket
  | K_timetosvc => timetosvc
  | K_trends => trends
  end.

(** What [con.execute(sql).df()] gives for each of the eight texts: an
    exception or the value.  The script sees no more of the engine and of
    the file than this. *)
Definition Connection := forall k : Key, Exn + Result k.

(** The connection to a database that stores the columns with the types the
    queries expect, for a table name that is a plain identifier: the table
    is looked up, the columns are bound, the query is run.  Such a database
    fails a query only on a missing table or column. *)
Definition execute (db : Database) (T : string) : Connection :=
  fun k =>
  match find_table T db with
  | None => inl (CatalogError T)
  | Some st =>
      match filter (fun c => negb (existsb (same_identifier c) (stored_columns st)))
                   (referenced k) with
      | c :: _ => inl (BinderError c)
      | [] => inr (evaluate k (stored_rows st))
      end
  end.

(** What a chart is drawn from. Sizes, angles and axis titles are left out. *)
Inductive Figure :=
  | GroupedBars (traces : list (string * list string * list Z))
  | RankLine (x : list Z) (y : list NullableDouble) (custom_data : list string)
  | Bars (x : list string) (y : list Z)
  | ColouredLine (x : list string) (y : list Z) (color : list string).

Inductive Element :=
  | subheader (s : string)
  | plotly_chart (fig : Figure)
  | dataframe (df : DataFrame)
  | metric (label value : string)
  | exception (e : Exn).

(** What a run leaves behind: the elements on the page, each with the
    number of the column [c1] .. [c8] it was written into, and the SQL
    texts handed to the engine. *)
Record Page := mkPage {
  elements : list (nat * Element);
  executed : list string
}.

Definition blank_page : Page := mkPage [] [].

(** A piece of the script: it may raise, and it writes to the page. *)
Definition Script (A : Type) : Type := Page -> (Exn + A) * Page.

Definition ret {A} (a : A) : Script A := fun p => (inr a, p).

Definition bind {A B} (m : Script A) (f : A -> Script B) : Script B :=
  fun p =>
    match m p with
    | (inl e, p') => (inl e, p')
    | (inr a, p') => f a p'
    end.

Notation "x <- m ;; f" := (bind m (fun x => f))
  (at level 61, m at next level, right associativity).
Notation "m ;;; f" := (bind m (fun _ => f))
  (at level 61, right associativity).

(** An [st.] call inside [with c:]. *)
Definition st (c : nat) (e : Element) : Script unit :=
  fun p => (inr tt, mkPage (elements p ++ [(c, e)]) (executed p)).

Definition when (b : bool) (m : Script unit) : Script unit :=
  if b then m else ret tt.

(** [run_sql(db_path, SQL[k])].  Nothing catches what it raises. *)
Definition run_sql (con : Connection) (T : string) (k : Key) : Script (Result k) :=
  fun p => (con k, mkPage (elements p) (executed p ++ [SQL T k])).

(** The sidebar inputs that reach the widgets. *)
Record Inputs := mkInputs {
  table_name : string;
  top_n_pairs : Z;
  top_n_accounts : Z
}.

(** Widgets 1 to 3. *)
Definition funnel_widget (c : nat) (title : string) (k : Key)
    (to_rows : Result k -> list FunnelRow) (spend_column spend_name : string)
    (con : Connection) (i : Inputs) : Script unit :=
  st c (subheader title) ;;;
  df <- run_sql con (table_name i) k ;;
  let df := to_rows df in
  when (negb (empty (df_funnel spend_column df)))
    (let df_top := head (top_n_accounts i) (sort_values_desc total_follow_up_spend df) in
     st c (plotly_chart (GroupedBars
       [("License+Sub Spend", map f_account df_top,
           map total_license_subscription_spend df_top);
        (spend_name, map f_account df_top, map total_follow_up_spend df_top)]))) ;;;
  st c (dataframe (df_funnel spend_column df)).

(** A row of [df_plot]. *)
Record PlotRow := mkPlot {
  rank : Z;
  p_account : string;
  p_total_revenue : Z;
  p_cumulative_revenue : Z;
  p_cumulative_percentage : NullableDouble
}.

Fixpoint ranked (from : Z) (rows : list RevconRow) : list PlotRow :=
  match rows with
  | [] => []
  | r :: rows' =>
      mkPlot from (r_account r) (total_revenue r) (cumulative_revenue r)
             (cumulative_percentage r) :: ranked (from + 1) rows'
  end.

(** Widget 4. *)
Definition revcon_widget (con : Connection) (i : Inputs) : Script unit :=
  st 4 (subheader "Revenue Concentration") ;;;
  df <- run_sql con (table_name i) K_revcon ;;
  when (negb (empty (df_revcon df)))
    (let df_plot := ranked 1 df in
     let start_row := mkPlot 0 "Start" 0 0 (Some (Finite 0)) in
     let df_plot := start_row :: df_plot in
     st 4 (plotly_chart (RankLine (map rank df_plot)
                                  (map p_cumulative_percentage df_plot)
                                  (map p_account df_plot)))) ;;;
  st 4 (dataframe (df_revcon df)).

(** The value line of the attach-rate metric. *)
Definition attach_value (df : DataFrame) : option Double :=
  if negb (empty df) && has_column "training_attach_rate_percentage" df
  then match loc0 "training_attach_rate_percentage" df with
       | Some v => if negb (isna v) then float_of_scalar v else None
       | None => None
       end
  else None.

(** Widget 5. *)
Definition attach_widget (con : Connection) (i : Inputs) : Script unit :=
  st 5 (subheader "Training Attach Rate (%)") ;;;
  r <- run_sql con (table_name i) K_attach ;;
  let df := df_scalar "training_attach_rate_percentage" r in
  let val := attach_value df in
  st 5 (metric "Attach rate"
          match val with
          | Some v => format_float v ++ "%"
          | None => no_data
          end) ;;;
  st 5 (dataframe df).

(** Widget 6.  The script assigns the truncated frame back to [df]. *)
Definition basket_widget (con : Connection) (i : Inputs) : Script unit :=
  st 6 (subheader "Service Combinations (Top N)") ;;;
  df <- run_sql con (table_name i) K_basket ;;
  if negb (empty (df_basket df))
  then
    let df := map (fun r => (r, service_1 r ++ " + " ++ service_2 r)) df in
    let df := head (top_n_pairs i)
                (sort_values_desc (fun r => number_of_customers (fst r)) df) in
    st 6 (plotly_chart (Bars (map snd df) (map (fun r => number_of_customers (fst r)) df))) ;;;
    st 6 (dataframe (df_basket_pair df))
  else
    st 6 (dataframe (df_basket df)).

(** The days the time-to-training metric shows for a value [val]. *)
Definition days_of_value (val : Scalar) : option Double :=
  if isna val then None
  else match val with
       | Timedelta micros => Some (Finite (inject_Z (days micros)))
       | _ => float_of_first_word val
       end.

Definition days_val (df : DataFrame) : option Double :=
  if negb (empty df) && has_column "avg_days_to_training" df
  then match loc0 "avg_days_to_training" df with
       | Some val => days_of_value val
       | None => None
       end
  else None.

(** What the metric of widget 7 shows. *)
Definition avg_days_text (d : option Double) : string :=
  match d with
  | Some v => format_float v
  | None => no_data
  end.

(** Widget 7. *)
Definition timetosvc_widget (con : Connection) (i : Inputs) : Script unit :=
  st 7 (subheader "Avg Days to Training After First Purchase") ;;;
  r <- run_sql con (table_name i) K_timetosvc ;;
  let df := df_scalar "avg_days_to_training" r in
  st 7 (metric "Avg days" (avg_days_text (days_val df))) ;;;
  st 7 (dataframe df).

(** Widget 8. *)
Definition trends_widget (con : Connection) (i : Inputs) : Script unit :=
  st 8 (subheader "Monthly Revenue by Service Type") ;;;
  df <- run_sql con (table_name i) K_trends ;;
  when (negb (empty (df_trends df)))
    (st 8 (plotly_chart (ColouredLine (map sales_month df) (map monthly_revenue df)
                                      (map t_type df)))) ;;;
  st 8 (dataframe (df_trends df)).

Definition funnel_title (follow : string) : string :=
  "Licenses/Subscriptions " ++ String (ascii_of_nat 226) (String (ascii_of_nat 134)
     (String (ascii_of_nat 146) EmptyString)) ++ " " ++ follow.

(** The eight widgets, in the order the script writes them. *)
Definition widgets : list (Connection -> Inputs -> Script unit) :=
  [ funnel_widget 1 (funnel_title "FME Consulting") K_consulting (fun r => r)
      "total_fme_consulting_spend" "FME Consulting Spend";
    funnel_widget 2 (funnel_title "FME Training") K_training (fun r => r)
      "total_fme_training_spend" "FME Training Spend";
    funnel_widget 3 (funnel_title "Esri Consulting") K_esri (fun r => r)
      "total_esri_consulting_spend" "Esri Consulting Spend";
    revcon_widget; attach_widget; basket_widget; timetosvc_widget; trends_widget ].

(** The script from [T = table_name] on, for an opened connection. *)
Definition script (con : Connection) (i : Inputs) : Script unit :=
  fold_right (fun w rest => w con i ;;; rest) (ret tt) widgets.

(** A run: Streamlit shows an exception that nothing caught in place of
    the rest of the page. *)
Definition run_with (con : Connection) (i : Inputs) : Page :=
  match script con i blank_page with
  | (inl e, p) => mkPage (elements p ++ [(0%nat, exception e)]) (executed p)
  | (inr _, p) => p
  end.

(** A run on a database file. *)
Definition run (db : Database) (i : Inputs) : Page :=
  run_with (execute db (table_name i)) i.

(** The elements written into column [c]. *)
Definition column_elements (c : nat) (p : Page) : list Element :=
  map snd (filter (fun e => Nat.eqb (fst e) c) (elements p)).

End App.

Import Engine Queries Frames Texts App.

(** ** Vocabulary of the statements *)

(** A License or Subscription transaction. *)
Definition core (r : TransactionRecord) : Prop :=
  type r = "FME Licenses" \/ type r = "FME Subscription".

(** [d0] is the date of account [a]'s earliest License/Subscription
    transaction in [T]. *)
Definition earliest_core (T : Table) (a : string) (d0 : Z) : Prop :=
  (exists r, In r T /\ account r = a /\ core r /\ date r = d0) /\
  (forall r, In r T -> account r = a -> core r -> d0 <= date r).

(** Sum of [credit] over the transactions of [T] that pass [p]. *)
Definition credit_where (p : TransactionRecord -> bool) (T : Table) : Z :=
  SUM (map credit (filter p T)).

(** The earliest License/Subscription date of [a], if it has one. *)
Definition first_core_date (T : Table) (a : string) : option Z :=
  MIN (map date (filter (fun r => is_core r && (account r =? a)%string) T)).

(** The three transactions of the end-to-end example. *)
Definition example_table : Table :=
  [ mkTxn "A" "FME Licenses" (date_of_ymd 2023 1 1) 100;
    mkTxn "A" "FME Consulting" (date_of_ymd 2023 2 1) 50;
    mkTxn "B" "FME Subscription" (date_of_ymd 2023 1 10) 200 ].

(** Each row's [cumulative_revenue] is the sum of [total_revenue] over the
    rows up to and including it. *)
Definition prefix_sums (out : list RevconRow) : Prop :=
  forall pre row post,
    out = (pre ++ row :: post)%list ->
    cumulative_revenue row = SUM (map total_revenue pre) + total_revenue row.

(** Each row's [cumulative_revenue] is the sum of [total_revenue] over the
    rows whose revenue is at least its own: the rows before it and all the
    rows that tie with it. *)
Definition peer_sums (out : list RevconRow) : Prop :=
  forall row,
    In row out ->
    cumulative_revenue row =
      SUM (map total_revenue
             (filter (fun r => total_revenue row <=? total_revenue r) out)).

(** Row-by-row running sums in an order the table alone fixes. *)
Definition running_sum_in_fixed_order (T : Table) : Prop :=
  forall out,
    revcon_output T out ->
    prefix_sums out /\ forall out', revcon_output T out' -> out' = out.

(** Two accounts of equal revenue. *)
Definition tie_table : Table :=
  [ mkTxn "A" "FME Licenses" (date_of_ymd 2023 1 1) 100;
    mkTxn "B" "FME Licenses" (date_of_ymd 2023 1 1) 100 ].

(** Order on nullable percentages: both finite, and the first no larger. *)
Definition percentage_le (p1 p2 : NullableDouble) : Prop :=
  match p1, p2 with
  | Some (Finite a), Some (Finite b) => (a <= b)%Q
  | _, _ => False
  end.

(** *** The page, widget by widget *)

(** The column the widget of a query is written into. *)
Definition column_of (k : Key) : nat :=
  match k with
  | K_consulting => 1 | K_training => 2 | K_esri => 3 | K_revcon => 4
  | K_attach => 5 | K_basket => 6 | K_timetosvc => 7 | K_trends => 8
  end%nat.

(** The widget that runs a query. *)
Definition widget_for (k : Key) : Connection -> Inputs -> Script unit :=
  match k with
  | K_consulting =>
      funnel_widget 1 (funnel_title "FME Consulting") K_consulting (fun r => r)
        "total_fme_consulting_spend" "FME Consulting Spend"
  | K_training =>
      funnel_widget 2 (funnel_title "FME Training") K_training (fun r => r)
        "total_fme_training_spend" "FME Training Spend"
  | K_esri =>
      funnel_widget 3 (funnel_title "Esri Consulting") K_esri (fun r => r)
        "total_esri_consulting_spend" "Esri Consulting Spend"
  | K_revcon => revcon_widget
  | K_attach => attach_widget
  | K_basket => basket_widget
  | K_timetosvc => timetosvc_widget
  | K_trends => trends_widget
  end.

Definition title_of (k : Key) : string :=
  match k with
  | K_consulting => funnel_title "FME Consulting"
  | K_training => funnel_title "FME Training"
  | K_esri => funnel_title "Esri Consulting"
  | K_revcon => "Revenue Concentration"
  | K_attach => "Training Attach Rate (%)"
  | K_basket => "Service Combinations (Top N)"
  | K_timetosvc => "Avg Days to Training After First Purchase"
  | K_trends => "Monthly Revenue by Service Type"
  end.

(** What a funnel widget writes after its subheader, given the result. *)
Definition funnel_body (spend_column spend_name : string) (i : Inputs)
    (df : list FunnelRow) : list Element :=
  (if negb (empty (df_funnel spend_column df))
   then
     let df_top := head (top_n_accounts i) (sort_values_desc total_follow_up_spend df) in
     [plotly_chart (GroupedBars
        [("License+Sub Spend", map f_account df_top,
            map total_license_subscription_spend df_top);
         (spend_name, map f_account df_top, map total_follow_up_spend df_top)])]
   else []) ++ [dataframe (df_funnel spend_column df)].

Definition revcon_body (df : list RevconRow) : list Element :=
  (if negb (empty (df_revcon df))
   then
     let df_plot := mkPlot 0 "Start" 0 0 (Some (Finite 0)) :: ranked 1 df in
     [plotly_chart (RankLine (map rank df_plot) (map p_cumulative_percentage df_plot)
                             (map p_account df_plot))]
   else []) ++ [dataframe (df_revcon df)].

Definition attach_body (r : NullableDouble) : list Element :=
  let df := df_scalar "training_attach_rate_percentage" r in
  [metric "Attach rate"
     match attach_value df with
     | Some v => format_float v ++ "%"
     | None => no_data
     end;
   dataframe df].

Definition basket_body (i : Inputs) (df : list BasketRow) : list Element :=
  if negb (empty (df_basket df))
  then
    let df := map (fun r => (r, service_1 r ++ " + " ++ service_2 r)) df in
    let df := head (top_n_pairs i)
                (sort_values_desc (fun r => number_of_customers (fst r)) df) in
    [plotly_chart (Bars (map snd df) (map (fun r => number_of_customers (fst r)) df));
     dataframe (df_basket_pair df)]
  else [dataframe (df_basket df)].

Definition timetosvc_body (r : NullableDouble) : list Element :=
  let df := df_scalar "avg_days_to_training" r in
  [metric "Avg days" (avg_days_text (days_val df)); dataframe df].

Definition trends_body (df : list TrendRow) : list Element :=
  (if negb (empty (df_trends df))
   then [plotly_chart (ColouredLine (map sales_month df) (map monthly_revenue df)
                                    (map t_type df))]
   else []) ++ [dataframe (df_trends df)].

Definition body (k : Key) (i : Inputs) : Result k -> list Element :=
  match k with
  | K_consulting => funnel_body "total_fme_consulting_spend" "FME Consulting Spend" i
  | K_training => funnel_body "total_fme_training_spend" "FME Training Spend" i
  | K_esri => funnel_body "total_esri_consulting_spend" "Esri Consulting Spend" i
  | K_revcon => revcon_body
  | K_attach => attach_body
  | K_basket => basket_body i
  | K_timetosvc => timetosvc_body
  | K_trends => trends_body
  end.

(** What the widget of [k] leaves in its column, given how the query went. *)
Definition rendering (k : Key) (i : Inputs) (out : Exn + Result k) : list Element :=
  match out with
  | inl _ => [subheader (title_of k)]
  | inr r => subheader (title_of k) :: body k i r
  end.

(** The connection answers query [k]. *)
Definition answers (con : Connection) (k : Key) : bool :=
  match con k with inr _ => true | inl _ => false end.

(** The queries a run reaches: every one up to the first that fails. *)
Fixpoint reached (con : Connection) (ks : list Key) : list Key :=
  match ks with
  | [] => []
  | k :: ks' => k :: (if answers con k then reached con ks' else [])
  end.

(** The exception a run ends with, if a query fails. *)
Fixpoint first_error (con : Connection) (ks : list Key) : option Exn :=
  match ks with
  | [] => None
  | k :: ks' =>
      match con k with
      | inl e => Some e
      | inr _ => first_error con ks'
      end
  end.

(** The same for a database file and a table name. *)
Definition succeeds (db : Database) (T : string) (k : Key) : bool :=
  answers (execute db T) k.

Definition attempted (db : Database) (T : string) (ks : list Key) : list Key :=
  reached (execute db T) ks.

Definition failure (db : Database) (T : string) (ks : list Key) : option Exn :=
  first_error (execute db T) ks.

(** The widget of [k] shows its result table. *)
Definition rendered (k : Key) (p : Page) : Prop :=
  exists df, In (dataframe df) (column_elements (column_of k) p).

(** A database whose one table has all four columns. *)
Definition database_of (name : string) (T : Table) : Database :=
  [(name, mkStored ["account"; "type"; "date"; "credit"] T)].


(** Account [a] has a transaction of type [t] in [T]. *)
Definition has_type (T : Table) (a t : string) : Prop :=
  exists r, In r T /\ account r = a /\ type r = t.

(** Types [t1] and [t2] both occur in some one account. *)
Definition co_occur (T : Table) (t1 t2 : string) : Prop :=
  exists a, has_type T a t1 /\ has_type T a t2.

(** [row] is the row of the unordered pair [{t1, t2}]. *)
Definition row_of_pair (row : BasketRow) (t1 t2 : string) : Prop :=
  (service_1 row = t1 /\ service_2 row = t2) \/
  (service_1 row = t2 /\ service_2 row = t1).







Definition default_inputs : Inputs := mkInputs "analysis_duckdb" 15 30.

(** Every query that the engine can answer has its widget rendered,
    whatever happens to the others. *)
Definition queries_run_independently (db : Database) (i : Inputs) : Prop :=
  forall k, succeeds db (table_name i) k = true ->
    In (SQL (table_name i) k) (executed (run db i)) /\ rendered k (run db i).

(** A database whose table lacks the [date] and [credit] columns. *)
Definition narrow_database : Database :=
  [("analysis_duckdb", mkStored ["account"; "type"] example_table)].

(** What the engine raises on an operation it has no function for. *)
Definition no_such_function : Exn :=
  EngineError "No function matches the given name and argument types".

(** A connection on which the time-to-training and the trends query fail
    and the six queries before them return what they return on [T].  A file
    whose [date] column holds the dates as text gives such a connection:
    texts compare and have a minimum, but the engine has no subtraction and
    no [strftime] for them. *)
Definition text_dates (T : Table) : Connection :=
  fun k =>
    match k return Exn + Result k with
    | K_consulting => inr (consulting T)
    | K_training => inr (training T)
    | K_esri => inr (esri T)
    | K_revcon => inr (revcon T)
    | K_attach => inr (attach T)
    | K_basket => inr (basket T)
    | K_timetosvc => inl no_such_function
    | K_trends => inl no_such_function
    end.

(** One account with four service types: six pairs. *)
Definition four_service_table : Table :=
  [ mkTxn "A" "FME Licenses" (date_of_ymd 2023 1 1) 100;
    mkTxn "A" "FME Consulting" (date_of_ymd 2023 2 1) 50;
    mkTxn "A" "FME Training" (date_of_ymd 2023 3 1) 20;
    mkTxn "A" "Esri Consulting" (date_of_ymd 2023 4 1) 10 ].

(** Two accounts with a licence and consulting, and before them one with a
    licence and training. *)
Definition pair_table : Table :=
  [ mkTxn "A" "FME Licenses" (date_of_ymd 2023 1 1) 100;
    mkTxn "A" "FME Training" (date_of_ymd 2023 2 1) 40;
    mkTxn "B" "FME Licenses" (date_of_ymd 2023 1 5) 100;
    mkTxn "B" "FME Consulting" (date_of_ymd 2023 3 1) 50;
    mkTxn "C" "FME Licenses" (date_of_ymd 2023 1 9) 100;
    mkTxn "C" "FME Consulting" (date_of_ymd 2023 4 1) 60 ].

(** The smallest value the sidebar allows for the number of pairs. *)
Definition five_pairs : Inputs := mkInputs "analysis_duckdb" 5 30.

(** A letter, a digit or an underscore: what an unquoted SQL identifier is
    made of. *)
Definition is_identifier_char (c : ascii) : bool :=
  let n := nat_of_ascii c in
  ((65 <=? n) && (n <=? 90) || (97 <=? n) && (n <=? 122)
   || (48 <=? n) && (n <=? 57) || (n =? 95))%nat.

(** A table name with any other character has no SQL text run for it. *)
Definition table_name_is_validated : Prop :=
  forall db i,
    (exists c, In c (list_ascii_of_string (table_name i)) /\ is_identifier_char c = false) ->
    executed (run db i) = [].

Definition injected_inputs : Inputs := mkInputs "t; SELECT 1 --" 15 30.

(** An average of a day and a half, as a Timedelta. *)
Definition day_and_a_half : Scalar := Timedelta 129600000000.

Definition Key_dec (x y : Key) : {x = y} + {x <> y}.
Proof. decide equality. Defined.

(** [d1] is the date of account [a]'s first Training transaction after
    day [d0]. *)
Definition first_training_after (T : Table) (a : string) (d0 d1 : Z) : Prop :=
  (exists r, In r T /\ account r = a /\ type r = "FME Training" /\
             d0 < date r /\ date r = d1) /\
  (forall r, In r T -> account r = a -> type r = "FME Training" ->
             d0 < date r -> d1 <= date r).



(** One account that buys a licence and, ten days later, training. *)
Definition training_table : Table :=
  [ mkTxn "A" "FME Licenses" (date_of_ymd 2023 1 1) 100;
    mkTxn "A" "FME Training" (date_of_ymd 2023 1 11) 40 ].

(** The leap years of the Gregorian calendar, and the days of its months. *)
Definition leap_year (y : Z) : bool :=
  (y mod 4 =? 0) && (negb (y mod 100 =? 0) || (y mod 400 =? 0)).

Definition days_in_month (y m : Z) : Z :=
  if m =? 2 then (if leap_year y then 29 else 28)
  else if (m =? 4) || (m =? 6) || (m =? 9) || (m =? 11) then 30
  else 31.

(** The integers from [lo] on, [n] of them. *)
Definition range (lo n : nat) : list Z := map Z.of_nat (seq lo n).

(** Day [d] of month [m] of year [y], if the month has such a day, is read
    back as year [y] and month [m]. *)
Definition round_trip (y m d : Z) : bool :=
  let ym := year_month_of_date (date_of_ymd y m d) in
  negb (d <=? days_in_month y m) || ((fst ym =? y) && (snd ym =? m)).


(** * Properties *)

(** ** The relational operators *)

Section EngineFacts.
Context {R S K : Type}.
Variable dec : forall x y : K, {x = y} + {x <> y}.

Lemma in_GROUP_BY (key : R -> K) (rows : list R) (k : K) (g : list R) :
  In (k, g) (GROUP_BY dec key rows) <->
  In k (map key rows) /\
  g = filter (fun r => if dec (key r) k then true else false) rows.
Proof.
  unfold GROUP_BY, DISTINCT. rewrite in_map_iff. split.
  - intros (k' & E & Hin). inversion E; subst. apply nodup_In in Hin. auto.
  - intros (Hin & ->). exists k. split; [reflexivity|]. now apply nodup_In.
Qed.

Lemma GROUP_BY_keys (key : R -> K) (rows : list R) :
  map fst (GROUP_BY dec key rows) = nodup dec (map key rows).
Proof.
  unfold GROUP_BY, DISTINCT. rewrite map_map. simpl. apply map_id.
Qed.

Lemma GROUP_BY_NoDup (key : R -> K) (rows : list R) :
  NoDup (map fst (GROUP_BY dec key rows)).
Proof. rewrite GROUP_BY_keys. apply NoDup_nodup. Qed.

Lemma in_JOIN (on : R -> S -> bool) (l : list R) (r : list S) (a : R) (b : S) :
  In (a, b) (JOIN on l r) <-> In a l /\ In b r /\ on a b = true.
Proof.
  unfold JOIN. rewrite in_flat_map. split.
  - intros (a' & Ha & Hin). apply in_map_iff in Hin as (b' & E & Hb).
    inversion E; subst. apply filter_In in Hb. tauto.
  - intros (Ha & Hb & Hon). exists a. split; [assumption|].
    apply in_map. apply filter_In. auto.
Qed.

Lemma insert_by_perm (leb : R -> R -> bool) (x : R) (l : list R) :
  Permutation (x :: l) (insert_by leb x l).
Proof.
  induction l as [|y l IH]; simpl; [reflexivity|].
  destruct (leb x y); [reflexivity|].
  rewrite perm_swap. now constructor.
Qed.

Lemma ORDER_BY_perm (leb : R -> R -> bool) (l : list R) :
  Permutation l (ORDER_BY leb l).
Proof.
  induction l as [|x l IH]; simpl; [constructor|].
  etransitivity; [|apply insert_by_perm]. now constructor.
Qed.

Lemma insert_by_sorted (leb : R -> R -> bool)
    (total : forall a b, leb a b = false -> leb b a = true) (x : R) (l : list R) :
  Sorted (fun a b => leb a b = true) l ->
  Sorted (fun a b => leb a b = true) (insert_by leb x l).
Proof.
  induction l as [|y l IH]; simpl; intros Hs.
  - repeat constructor.
  - destruct (leb x y) eqn:E.
    + constructor; [assumption|]. now constructor.
    + inversion Hs as [|? ? Hs' Hhd]; subst. constructor; [auto|].
      destruct l as [|z l]; simpl.
      * constructor. auto.
      * destruct (leb x z); constructor; auto.
        inversion Hhd; assumption.
Qed.

Lemma ORDER_BY_sorted (leb : R -> R -> bool)
    (total : forall a b, leb a b = false -> leb b a = true) (l : list R) :
  Sorted (fun a b => leb a b = true) (ORDER_BY leb l).
Proof.
  induction l as [|x l IH]; simpl; [constructor|].
  now apply insert_by_sorted.
Qed.

Lemma ORDER_BY_ordered_by (leb : R -> R -> bool)
    (total : forall a b, leb a b = false -> leb b a = true) (l : list R) :
  ordered_by leb l (ORDER_BY leb l).
Proof. split; [apply ORDER_BY_perm | now apply ORDER_BY_sorted]. Qed.

End EngineFacts.

Lemma filter_filter {A} (f g : A -> bool) (l : list A) :
  filter f (filter g l) = filter (fun x => g x && f x) l.
Proof.
  induction l as [|x l IH]; simpl; [reflexivity|].
  destruct (g x); simpl; [destruct (f x)|]; now rewrite IH.
Qed.

Lemma SUM_app (xs ys : list Z) : SUM (xs ++ ys) = SUM xs + SUM ys.
Proof. unfold SUM. induction xs; simpl; lia. Qed.

Lemma SUM_perm (xs ys : list Z) : Permutation xs ys -> SUM xs = SUM ys.
Proof. unfold SUM. induction 1; simpl; lia. Qed.

(** A list keyed without repetition holds at most one row per key. *)
Lemma filter_key_absent {V} (a : string) (l : list (string * V)) :
  ~ In a (map fst l) -> filter (fun p => (a =? fst p)%string) l = [].
Proof.
  induction l as [|[k v] l IH]; simpl; intros Hn; [reflexivity|].
  destruct (String.eqb_spec a k) as [->|_]; [exfalso; auto|]. apply IH. auto.
Qed.

Lemma filter_key_present {V} (a : string) (v : V) (l : list (string * V)) :
  NoDup (map fst l) -> In (a, v) l ->
  filter (fun p => (a =? fst p)%string) l = [(a, v)].
Proof.
  induction l as [|[k w] l IH]; simpl; intros Hnd Hin; [tauto|].
  inversion Hnd as [|? ? Hk Hnd']; subst.
  destruct Hin as [E|Hin].
  - inversion E; subst. rewrite String.eqb_refl. f_equal.
    now apply filter_key_absent.
  - destruct (String.eqb_spec a k) as [->|_].
    + exfalso. apply Hk. change k with (fst (k, v)). now apply in_map.
    + auto.
Qed.

Lemma MIN_spec (xs : list Z) (m : Z) :
  MIN xs = Some m <-> In m xs /\ forall x, In x xs -> m <= x.
Proof.
  destruct xs as [|x xs]; simpl.
  - split; [discriminate | tauto].
  - assert (H : forall y, (fold_right Z.min y xs = y \/ In (fold_right Z.min y xs) xs)
                         /\ fold_right Z.min y xs <= y
                         /\ forall z, In z xs -> fold_right Z.min y xs <= z).
    { induction xs as [|z xs IH]; simpl; intros y.
      - split; [auto|]. split; [lia | tauto].
      - destruct (IH y) as (Hm & Hy & Hall). repeat split.
        + destruct (Z.min_spec z (fold_right Z.min y xs)) as [[_ ->]|[_ ->]];
            [right; now left | destruct Hm as [->|Hm]; auto].
        + lia.
        + intros w [->|Hw]; [lia|]. specialize (Hall w Hw). lia. }
    destruct (H x) as (Hm & Hx & Hall). split.
    + intros E. inversion E; subst. split; [destruct Hm; auto|].
      intros y [<-|Hy]; auto.
    + intros (Hin & Hle). f_equal.
      assert (m <= fold_right Z.min x xs)
        by (apply Hle; destruct Hm as [E|E]; [left; symmetry; exact E | right; exact E]).
      assert (fold_right Z.min x xs <= m) by (destruct Hin as [<-|Hin]; auto).
      lia.
Qed.

Lemma MIN_none (xs : list Z) : MIN xs = None <-> xs = [].
Proof. destruct xs; simpl; split; congruence. Qed.

Lemma string_leb_total' (a b : string) : (a <=? b)%string = false -> (b <=? a)%string = true.
Proof. destruct (String.leb_total a b) as [H|H]; congruence. Qed.

(** ** The funnel queries *)

Lemma is_core_iff (r : TransactionRecord) : is_core r = true <-> core r.
Proof.
  unfold is_core, core. rewrite orb_true_iff, !String.eqb_eq. tauto.
Qed.

Lemma in_keys_iff_group {R} (key : R -> string) (a : string) (l : list R) :
  In a (map key l) <->
  filter (fun r => if string_dec (key r) a then true else false) l <> [].
Proof.
  induction l as [|x l IH]; simpl; [tauto|].
  destruct (string_dec (key x) a) as [E|N].
  - split; [discriminate | auto].
  - rewrite <- IH. tauto.
Qed.

Lemma core_group (T : Table) (a : string) :
  filter (fun r => if string_dec (account r) a then true else false) (filter is_core T)
  = filter (fun r => is_core r && (account r =? a)%string) T.
Proof.
  rewrite filter_filter. apply filter_ext. intros r.
  destruct (string_dec (account r) a) as [->|N].
  - now rewrite String.eqb_refl.
  - apply String.eqb_neq in N. now rewrite N.
Qed.

Lemma first_core_date_iff (T : Table) (a : string) (d0 : Z) :
  first_core_date T a = Some d0 <-> earliest_core T a d0.
Proof.
  unfold first_core_date, earliest_core. rewrite MIN_spec. split.
  - intros (Hin & Hle). split.
    + apply in_map_iff in Hin as (r & Hd & Hr). apply filter_In in Hr as (Hr & Hp).
      apply andb_true_iff in Hp as (Hc & Ha).
      exists r. rewrite <- is_core_iff. apply String.eqb_eq in Ha. auto.
    + intros r Hr Ha Hc. apply Hle. apply in_map. apply filter_In. split; [assumption|].
      apply andb_true_iff. rewrite is_core_iff, String.eqb_eq. auto.
  - intros ((r & Hr & Ha & Hc & Hd) & Hle). split.
    + rewrite <- Hd. apply in_map. apply filter_In. split; [assumption|].
      apply andb_true_iff. rewrite is_core_iff, String.eqb_eq. auto.
    + intros x Hx. apply in_map_iff in Hx as (r' & <- & Hr').
      apply filter_In in Hr' as (Hr' & Hp). apply andb_true_iff in Hp as (Hc' & Ha').
      apply Hle; [assumption | now apply String.eqb_eq | now apply is_core_iff].
Qed.

Lemma first_core_date_defined (T : Table) (a : string) :
  In a (map account (filter is_core T)) <-> exists d0, first_core_date T a = Some d0.
Proof.
  rewrite in_keys_iff_group, core_group. unfold first_core_date.
  destruct (filter _ T) as [|r l]; simpl.
  - split; [tauto | intros (d & H); discriminate].
  - split; [eauto | discriminate].
Qed.

Lemma in_FirstInitialPurchase (T : Table) (a : string) (d : option Z) :
  In (a, d) (FirstInitialPurchase T) <->
  In a (map account (filter is_core T)) /\ d = first_core_date T a.
Proof.
  unfold FirstInitialPurchase. rewrite in_map_iff. split.
  - intros ([k g] & E & Hin). simpl in E. inversion E; subst.
    apply in_GROUP_BY in Hin as (Hk & ->). split; [assumption|].
    unfold first_core_date. now rewrite core_group.
  - intros (Hk & ->). eexists (a, _). split; [|apply in_GROUP_BY; eauto].
    simpl. unfold first_core_date. now rewrite core_group.
Qed.

Lemma FirstInitialPurchase_NoDup (T : Table) : NoDup (map fst (FirstInitialPurchase T)).
Proof.
  unfold FirstInitialPurchase. rewrite map_map. simpl.
  apply (GROUP_BY_NoDup string_dec account).
Qed.

Lemma FirstInitialPurchase_lookup (T : Table) (a : string) :
  filter (fun f => (a =? fst f)%string) (FirstInitialPurchase T) =
  match first_core_date T a with
  | Some d => [(a, Some d)]
  | None => []
  end.
Proof.
  destruct (in_dec string_dec a (map account (filter is_core T))) as [Hin|Hn].
  - pose proof Hin as Hd. apply first_core_date_defined in Hd as (d & Hd).
    rewrite Hd, <- Hd. apply filter_key_present; [apply FirstInitialPurchase_NoDup|].
    now apply in_FirstInitialPurchase.
  - destruct (first_core_date T a) as [d|] eqn:Hd.
    + exfalso. apply Hn. apply first_core_date_defined. eauto.
    + apply filter_key_absent. intros Hk. apply in_map_iff in Hk as ([k v] & E & Hk).
      simpl in E; subst. apply in_FirstInitialPurchase in Hk. tauto.
Qed.

(** The rows the follow-up CTE groups under [a]: [a]'s transactions of the
    follow-up type dated after its first core purchase. *)
Lemma follow_up_group (follow : string) (T : Table) (a : string) (l : Table) :
  map fst
    (filter (fun p : TransactionRecord * (string * option Z) =>
               if string_dec (fst (snd p)) a then true else false)
       (filter (fun p => (type (fst p) =? follow)%string
                         && gt_nullable (date (fst p)) (snd (snd p)))
          (JOIN (fun ad fip => (account ad =? fst fip)%string) l (FirstInitialPurchase T))))
  = filter (fun r => (account r =? a)%string && (type r =? follow)%string
                     && gt_nullable (date r) (first_core_date T a)) l.
Proof.
  induction l as [|r l IH]; [reflexivity|].
  unfold JOIN in *. cbn [flat_map]. rewrite !filter_app, map_app, IH. clear IH.
  change (r :: l) with ([r] ++ l)%list. rewrite (filter_app _ [r] l). f_equal.
  rewrite FirstInitialPurchase_lookup. cbn [filter].
  destruct (String.eqb_spec (account r) a) as [E|N].
  - rewrite <- E. destruct (first_core_date T (account r)) as [d|]; cbn -[string_dec].
    + destruct ((type r =? follow)%string && (d <? date r)); cbn -[string_dec];
        [|reflexivity].
      destruct (string_dec (account r) (account r)); [reflexivity | congruence].
    + now rewrite andb_false_r.
  - cbn -[string_dec].
    destruct (first_core_date T (account r)) as [d|]; cbn -[string_dec]; [|reflexivity].
    destruct ((type r =? follow)%string && (d <? date r)); cbn -[string_dec];
      [|reflexivity].
    destruct (string_dec (account r) a); [congruence | reflexivity].
Qed.

Lemma in_InitialSpend (T : Table) (a : string) (s : Z) :
  In (a, s) (InitialSpend T) <->
  In a (map account (filter is_core T)) /\
  s = credit_where (fun r => is_core r && (account r =? a)%string) T.
Proof.
  unfold InitialSpend, credit_where. rewrite in_map_iff. split.
  - intros ([k g] & E & Hin). simpl in E. inversion E; subst.
    apply in_GROUP_BY in Hin as (Hk & ->). now rewrite core_group.
  - intros (Hk & ->). eexists (a, _). split; [|apply in_GROUP_BY; eauto].
    simpl. now rewrite core_group.
Qed.

Lemma in_FollowUpSpend (follow : string) (T : Table) (a : string) (s : Z) :
  In (a, s) (FollowUpSpend follow T) <->
  filter (fun r => (account r =? a)%string && (type r =? follow)%string
                   && gt_nullable (date r) (first_core_date T a)) T <> [] /\
  s = credit_where (fun r => (account r =? a)%string && (type r =? follow)%string
                             && gt_nullable (date r) (first_core_date T a)) T.
Proof.
  unfold FollowUpSpend, credit_where. rewrite in_map_iff.
  rewrite <- (follow_up_group follow T a T). split.
  - intros ([k g] & E & Hin). simpl in E. inversion E; subst.
    apply in_GROUP_BY in Hin as (Hk & ->). apply in_keys_iff_group in Hk.
    rewrite map_map. split; [|reflexivity].
    intros H. apply Hk. apply map_eq_nil in H. exact H.
  - intros (Hk & ->). eexists (a, _). split; cycle 1.
    + apply in_GROUP_BY. split; [|reflexivity]. apply in_keys_iff_group.
      intros H. apply Hk. now rewrite H.
    + simpl. now rewrite map_map.
Qed.

Lemma InitialSpend_NoDup (T : Table) : NoDup (map fst (InitialSpend T)).
Proof.
  unfold InitialSpend. rewrite map_map. simpl.
  apply (GROUP_BY_NoDup string_dec account).
Qed.

Lemma FollowUpSpend_NoDup (follow : string) (T : Table) :
  NoDup (map fst (FollowUpSpend follow T)).
Proof.
  unfold FollowUpSpend. rewrite map_map. simpl.
  apply (GROUP_BY_NoDup string_dec).
Qed.

Lemma in_funnel (follow : string) (T : Table) (row : FunnelRow) :
  In row (funnel follow T) <->
  In (f_account row, total_license_subscription_spend row) (InitialSpend T) /\
  In (f_account row, total_follow_up_spend row) (FollowUpSpend follow T).
Proof.
  unfold funnel. split.
  - intros H. apply (Permutation_in _ (Permutation_sym (ORDER_BY_perm _ _))) in H.
    apply in_map_iff in H as ([[a s] [b c]] & <- & H). simpl.
    apply in_JOIN in H as (Hi & Hf & E). simpl in E. apply String.eqb_eq in E.
    subst b. auto.
  - intros (Hi & Hf). apply (Permutation_in _ (ORDER_BY_perm _ _)).
    apply in_map_iff.
    exists ((f_account row, total_license_subscription_spend row),
            (f_account row, total_follow_up_spend row)).
    split; [now destruct row|]. apply in_JOIN. simpl.
    rewrite String.eqb_refl. auto.
Qed.

Lemma JOIN_on_key_NoDup {V W} (l : list (string * V)) (r : list (string * W)) :
  NoDup (map fst l) -> NoDup (map fst r) ->
  NoDup (map (fun p => fst (fst p))
             (JOIN (fun i f => (fst i =? fst f)%string) l r)).
Proof.
  intros Hl Hr. induction l as [|[k v] l IH]; simpl; [constructor|].
  inversion Hl as [|? ? Hk Hl']; subst. specialize (IH Hl').
  rewrite map_app, map_map. simpl.
  assert (Hsub : forall x, In x (map (fun p : (string * V) * (string * W) => fst (fst p))
                                     (JOIN (fun i f => (fst i =? fst f)%string) l r))
                           -> In x (map fst l)).
  { intros x Hx. apply in_map_iff in Hx as ([[a b] f] & <- & Hx).
    apply in_JOIN in Hx as (Hx & _). simpl. change a with (fst (a, b)).
    now apply in_map. }
  destruct (in_dec string_dec k (map fst r)) as [Hin|Hn].
  - apply in_map_iff in Hin as ([k' w] & E & Hin). simpl in E; subst k'.
    rewrite (filter_key_present k w r Hr Hin). simpl. constructor; auto.
  - rewrite (filter_key_absent k r Hn). exact IH.
Qed.

Lemma funnel_one_row_per_account (follow : string) (T : Table) :
  NoDup (map f_account (funnel follow T)).
Proof.
  unfold funnel.
  eapply Permutation_NoDup; [apply Permutation_map, ORDER_BY_perm|].
  rewrite map_map. simpl.
  apply JOIN_on_key_NoDup; [apply InitialSpend_NoDup | apply FollowUpSpend_NoDup].
Qed.

Lemma funnel_sorted (follow : string) (T : Table) :
  Sorted (fun r1 r2 => (f_account r1 <=? f_account r2)%string = true) (funnel follow T).
Proof.
  unfold funnel. apply ORDER_BY_sorted. intros a b. apply string_leb_total'.
Qed.

(** The rows of a funnel query, in terms of the transactions alone. *)
Lemma funnel_rows (follow : string) (T : Table) (row : FunnelRow) :
  In row (funnel follow T) <->
  exists d0,
    earliest_core T (f_account row) d0 /\
    (exists r, In r T /\ account r = f_account row /\ type r = follow /\ d0 < date r) /\
    total_license_subscription_spend row =
      credit_where (fun r => is_core r && (account r =? f_account row)%string) T /\
    total_follow_up_spend row =
      credit_where (fun r => (account r =? f_account row)%string
                             && (type r =? follow)%string && (d0 <? date r)) T.
Proof.
  rewrite in_funnel, in_InitialSpend, in_FollowUpSpend, first_core_date_defined.
  split.
  - intros (((d0 & Hd) & Hs) & Hne & Hc). exists d0. rewrite Hd in Hne, Hc.
    split; [now apply first_core_date_iff|]. split; [|auto].
    destruct (filter _ T) as [|r l] eqn:Hf; [congruence|].
    assert (Hr : In r (r :: l)) by now left. rewrite <- Hf in Hr.
    apply filter_In in Hr as (Hr & Hp).
    apply andb_true_iff in Hp as (Hp & Hlt). apply andb_true_iff in Hp as (Ha & Ht).
    exists r. rewrite String.eqb_eq in Ha, Ht. simpl in Hlt. apply Z.ltb_lt in Hlt. auto.
  - intros (d0 & Hd & (r & Hr & Ha & Ht & Hlt) & Hs & Hc).
    apply first_core_date_iff in Hd. rewrite Hd. simpl.
    split; [eauto|]. split; [|assumption].
    intros Hnil.
    assert (Hin : In r (filter (fun r => (account r =? f_account row)%string
                     && (type r =? follow)%string && (d0 <? date r)) T)).
    { apply filter_In. split; [assumption|].
      rewrite !andb_true_iff, !String.eqb_eq, Z.ltb_lt. auto. }
    rewrite Hnil in Hin. exact Hin.
Qed.

(** C1. The consulting-funnel query returns one row for exactly those
    accounts that have a License/Subscription transaction and a Consulting
    transaction dated strictly after their earliest License/Subscription
    date.  The row carries the sum of credit over the account's
    License/Subscription transactions and the sum of credit over its
    Consulting transactions after that date.  Rows come by account
    ascending, and the three-transaction example yields the single row
    (A, 100, 50). *)
Theorem consulting_funnel_spec (T : Table) :
  (forall row, In row (consulting T) <->
     exists d0,
       earliest_core T (f_account row) d0 /\
       (exists r, In r T /\ account r = f_account row /\
                  type r = "FME Consulting" /\ d0 < date r) /\
       total_license_subscription_spend row =
         credit_where (fun r => is_core r && (account r =? f_account row)%string) T /\
       total_follow_up_spend row =
         credit_where (fun r => (account r =? f_account row)%string
                                && (type r =? "FME Consulting")%string
                                && (d0 <? date r)) T) /\
  NoDup (map f_account (consulting T)) /\
  Sorted (fun r1 r2 => (f_account r1 <=? f_account r2)%string = true) (consulting T) /\
  consulting example_table = [mkFunnel "A" 100 50].
Proof.
  unfold consulting. split; [|split; [|split]].
  - intros row. apply funnel_rows.
  - apply funnel_one_row_per_account.
  - apply funnel_sorted.
  - reflexivity.
Qed.

(** ** Revenue concentration *)

Lemma filter_map_comm {A B} (p : B -> bool) (g : A -> B) (l : list A) :
  filter p (map g l) = map g (filter (fun x => p (g x)) l).
Proof.
  induction l as [|x l IH]; simpl; [reflexivity|].
  destruct (p (g x)); simpl; now rewrite IH.
Qed.

Lemma Permutation_filter' {A} (p : A -> bool) (l l' : list A) :
  Permutation l l' -> Permutation (filter p l) (filter p l').
Proof.
  induction 1 as [|x l l' _ IH|x y l|l l' l'' _ IH1 _ IH2]; simpl.
  - constructor.
  - destruct (p x); [now constructor | assumption].
  - destruct (p x), (p y); try reflexivity. apply perm_swap.
  - etransitivity; eassumption.
Qed.

Lemma revcon_rows_totals (T : Table) :
  map total_revenue (revcon_rows T) = map snd (CustomerTotalRevenue T).
Proof.
  unfold revcon_rows, RunningTotal. rewrite !map_map. reflexivity.
Qed.

Lemma revcon_rows_accounts (T : Table) :
  map r_account (revcon_rows T) = map fst (CustomerTotalRevenue T).
Proof.
  unfold revcon_rows, RunningTotal. rewrite !map_map. reflexivity.
Qed.

Lemma revcon_rows_frame (T : Table) (t : Z) :
  map total_revenue (filter (fun r => t <=? total_revenue r) (revcon_rows T))
  = map snd (filter (fun r => t <=? snd r) (CustomerTotalRevenue T)).
Proof.
  unfold revcon_rows, RunningTotal. rewrite map_map, filter_map_comm, map_map.
  reflexivity.
Qed.

Lemma revcon_rows_cumulative (T : Table) (row : RevconRow) :
  In row (revcon_rows T) ->
  cumulative_revenue row =
    SUM (map snd (filter (fun r => total_revenue row <=? snd r) (CustomerTotalRevenue T))).
Proof.
  unfold revcon_rows, RunningTotal. rewrite map_map, in_map_iff.
  intros (r & <- & _). reflexivity.
Qed.

Lemma revcon_rows_percentage (T : Table) (row : RevconRow) :
  In row (revcon_rows T) ->
  cumulative_percentage row =
    times_100 (divide (inject_Z (cumulative_revenue row)) (grand_total T)).
Proof.
  unfold revcon_rows, RunningTotal. rewrite map_map, in_map_iff.
  intros (r & <- & _). reflexivity.
Qed.

Lemma by_total_revenue_desc_total (a b : RevconRow) :
  by_total_revenue_desc a b = false -> by_total_revenue_desc b a = true.
Proof. unfold by_total_revenue_desc. lia. Qed.

Lemma revcon_is_output (T : Table) : revcon_output T (revcon T).
Proof. apply ORDER_BY_ordered_by, by_total_revenue_desc_total. Qed.

Lemma revcon_output_peer_sums (T : Table) (out : list RevconRow) :
  revcon_output T out -> peer_sums out.
Proof.
  intros (Hp & _) row Hin.
  apply (Permutation_in _ (Permutation_sym Hp)) in Hin.
  rewrite (revcon_rows_cumulative T row Hin), <- revcon_rows_frame.
  apply SUM_perm, Permutation_map, Permutation_filter', Hp.
Qed.

Lemma revcon_output_strongly_sorted (T : Table) (out : list RevconRow) :
  revcon_output T out ->
  StronglySorted (fun a b => total_revenue b <= total_revenue a) out.
Proof.
  intros (_ & Hs). apply Sorted_StronglySorted.
  - intros a b c. lia.
  - eapply Sorted_ind with (P := fun l => Sorted _ l); [constructor| |exact Hs].
    intros a l _ IH Hhd. constructor; [exact IH|].
    destruct Hhd as [|b l' Hab]; constructor.
    unfold by_total_revenue_desc in Hab. lia.
Qed.

Lemma strictly_sorted_of_distinct (out : list RevconRow) :
  StronglySorted (fun a b => total_revenue b <= total_revenue a) out ->
  NoDup (map total_revenue out) ->
  StronglySorted (fun a b => total_revenue b < total_revenue a) out.
Proof.
  induction 1 as [|a l Hs IH Hall]; simpl; intros Hnd; constructor.
  - apply IH. now inversion Hnd.
  - inversion Hnd as [|? ? Hn _]; subst.
    rewrite Forall_forall in *. intros b Hb. specialize (Hall b Hb).
    assert (total_revenue b <> total_revenue a).
    { intros E. apply Hn. rewrite <- E. now apply in_map. }
    lia.
Qed.

Lemma strictly_sorted_unique (l l' : list RevconRow) :
  Permutation l l' ->
  StronglySorted (fun a b => total_revenue b < total_revenue a) l ->
  StronglySorted (fun a b => total_revenue b < total_revenue a) l' ->
  l = l'.
Proof.
  revert l'. induction l as [|x l IH]; intros l' Hp Hs Hs'.
  - apply Permutation_nil in Hp. now subst.
  - destruct l' as [|y l']; [apply Permutation_sym, Permutation_nil in Hp; discriminate|].
    inversion Hs as [|? ? Hs1 Hall]; subst. inversion Hs' as [|? ? Hs1' Hall']; subst.
    rewrite Forall_forall in Hall, Hall'.
    assert (E : x = y).
    { assert (Hx : In x (y :: l')) by (eapply Permutation_in; [exact Hp | now left]).
      assert (Hy : In y (x :: l))
        by (eapply Permutation_in; [exact (Permutation_sym Hp) | now left]).
      destruct Hx as [E|Hx]; [now symmetry|].
      destruct Hy as [E|Hy]; [assumption|].
      specialize (Hall y Hy). specialize (Hall' x Hx). lia. }
    subst y. f_equal. apply IH; [eapply Permutation_cons_inv; exact Hp | assumption | assumption].
Qed.

Lemma strictly_sorted_prefix (pre post : list RevconRow) (row : RevconRow) :
  StronglySorted (fun a b => total_revenue b < total_revenue a) (pre ++ row :: post) ->
  filter (fun r => total_revenue row <=? total_revenue r) (pre ++ row :: post)
  = (pre ++ [row])%list.
Proof.
  induction pre as [|x pre IH]; simpl; intros Hs.
  - rewrite Z.leb_refl. f_equal.
    inversion Hs as [|? ? _ Hall]; subst. rewrite Forall_forall in Hall.
    clear Hs. induction post as [|y post IHp]; simpl; [reflexivity|].
    assert (total_revenue y < total_revenue row) by (apply Hall; now left).
    destruct (Z.leb_spec (total_revenue row) (total_revenue y)); [lia|].
    apply IHp. intros z Hz. apply Hall. now right.
  - inversion Hs as [|? ? Hs' Hall]; subst. rewrite Forall_forall in Hall.
    assert (total_revenue row < total_revenue x).
    { apply Hall. apply in_or_app. right. now left. }
    destruct (Z.leb_spec (total_revenue row) (total_revenue x)); [|lia].
    f_equal. now apply IH.
Qed.

Lemma revcon_output_distinct (T : Table) (out : list RevconRow) :
  revcon_output T out -> NoDup (map total_revenue out) ->
  prefix_sums out /\ forall out', revcon_output T out' -> out' = out.
Proof.
  intros Hout Hnd.
  pose proof (revcon_output_strongly_sorted T out Hout) as Hs.
  pose proof (revcon_output_peer_sums T out Hout) as Hpeer.
  pose proof (strictly_sorted_of_distinct out Hs Hnd) as Hstrict. split.
  - intros pre row post E. subst out.
    rewrite (Hpeer row) by (apply in_or_app; right; now left).
    rewrite (strictly_sorted_prefix pre post row Hstrict).
    rewrite map_app, SUM_app. simpl. lia.
  - intros out' Hout'. symmetry. apply strictly_sorted_unique; [| assumption |].
    + destruct Hout as (Hp & _), Hout' as (Hp' & _).
      etransitivity; [apply Permutation_sym; exact Hp | exact Hp'].
    + apply strictly_sorted_of_distinct.
      * eapply revcon_output_strongly_sorted; eassumption.
      * destruct Hout as (Hp & _), Hout' as (Hp' & _).
        eapply Permutation_NoDup; [|exact Hnd].
        apply Permutation_map. etransitivity; [apply Permutation_sym; exact Hp | exact Hp'].
Qed.

(** C2, as the code has it.  The revenue-concentration query returns its
    rows ordered by total_revenue descending.  It names no second sort key:
    every arrangement of the rows that is descending in total_revenue is an
    output of the query as well.  When no two accounts have equal
    total_revenue, cumulative_revenue is the row-by-row running sum and the
    output is the only one. *)
Theorem revcon_cumulative_spec (T : Table) :
  StronglySorted (fun a b => total_revenue b <= total_revenue a) (revcon T) /\
  (forall out, Permutation (revcon T) out ->
     Sorted (fun a b => total_revenue b <= total_revenue a) out ->
     revcon_output T out) /\
  (NoDup (map total_revenue (revcon T)) ->
   prefix_sums (revcon T) /\ forall out, revcon_output T out -> out = revcon T).
Proof.
  pose proof (revcon_is_output T) as Hout.
  split; [now apply (revcon_output_strongly_sorted T)|]. split.
  - intros out Hp Hs. destruct Hout as (Hp0 & _). split.
    + etransitivity; eassumption.
    + eapply Sorted_ind with (P := fun l => Sorted _ l); [constructor| |exact Hs].
      intros a l _ IH Hhd. constructor; [exact IH|].
      destruct Hhd as [|b l' Hab]; constructor.
      unfold by_total_revenue_desc. lia.
  - now apply revcon_output_distinct.
Qed.

Lemma revcon_cumulative_spec_witness :
  NoDup (map total_revenue (revcon example_table)) /\
  prefix_sums (revcon example_table) /\
  forall out, revcon_output example_table out -> out = revcon example_table.
Proof.
  assert (Hnd : NoDup (map total_revenue (revcon example_table))).
  { vm_compute. repeat constructor; simpl; intuition discriminate. }
  split; [exact Hnd|].
  apply (revcon_cumulative_spec example_table); exact Hnd.
Defined.

Lemma revcon_ties_two_orders :
  exists out out',
    revcon_output tie_table out /\ revcon_output tie_table out' /\ out <> out'.
Proof.
  exists (revcon tie_table), (rev (revcon tie_table)).
  split; [apply revcon_is_output|]. split; [|vm_compute; discriminate].
  split.
  - etransitivity; [apply (revcon_is_output tie_table) | apply Permutation_rev].
  - vm_compute. repeat constructor.
Qed.

(** C2 as stated fails where two accounts tie: no secondary key orders
    them, so the two rows may come either way round and the table does not
    fix the output. *)
Lemma revcon_ties_counterexample :
  (exists out out',
     revcon_output tie_table out /\ revcon_output tie_table out' /\ out <> out') /\
  ~ running_sum_in_fixed_order tie_table.
Proof.
  split; [exact revcon_ties_two_orders|].
  intros H. destruct revcon_ties_two_orders as (out & out' & Ho & Ho' & Hne).
  destruct (H out Ho) as (_ & Hu). apply Hne. symmetry. now apply Hu.
Qed.

Lemma pct_mono (a b g : Z) :
  a <= b -> 0 < g ->
  (inject_Z a / inject_Z g * 100 <= inject_Z b / inject_Z g * 100)%Q.
Proof.
  intros Hab Hg. destruct g as [|p|p]; try lia.
  unfold Qle, Qdiv, Qmult, Qinv, inject_Z. simpl. nia.
Qed.

Lemma pct_full (g : Z) : 0 < g -> (inject_Z g / inject_Z g * 100 == 100)%Q.
Proof.
  intros Hg. destruct g as [|p|p]; try lia.
  unfold Qeq, Qdiv, Qmult, Qinv, inject_Z. simpl. nia.
Qed.

Lemma SUM_nonneg (xs : list Z) : (forall x, In x xs -> 0 <= x) -> 0 <= SUM xs.
Proof.
  unfold SUM. induction xs as [|x xs IH]; simpl; intros H; [lia|].
  assert (0 <= x) by (apply H; now left).
  assert (0 <= fold_right Z.add 0 xs) by (apply IH; intros; apply H; now right).
  lia.
Qed.

Lemma CustomerTotalRevenue_nonneg (T : Table) :
  (forall r, In r T -> 0 <= credit r) ->
  forall x, In x (map snd (CustomerTotalRevenue T)) -> 0 <= x.
Proof.
  intros Hnn x Hx. unfold CustomerTotalRevenue in Hx. rewrite map_map in Hx.
  apply in_map_iff in Hx as ([k g] & <- & Hin). simpl.
  apply in_GROUP_BY in Hin as (_ & ->). apply SUM_nonneg.
  intros c Hc. apply in_map_iff in Hc as (r & <- & Hr).
  apply filter_In in Hr as (Hr & _). now apply Hnn.
Qed.

(** With no negative entry, a larger threshold leaves a smaller sum. *)
Lemma frame_sum_antitone (l : list (string * Z)) (t1 t2 : Z) :
  (forall x, In x (map snd l) -> 0 <= x) -> t2 <= t1 ->
  SUM (map snd (filter (fun r => t1 <=? snd r) l))
  <= SUM (map snd (filter (fun r => t2 <=? snd r) l)).
Proof.
  intros Hnn Ht. induction l as [|[k v] l IH]; simpl; [lia|].
  assert (0 <= v) by (apply Hnn; now left).
  assert (IH' := IH (fun x Hx => Hnn x (or_intror Hx))).
  destruct (Z.leb_spec t1 v), (Z.leb_spec t2 v); simpl;
    fold (SUM (map snd (filter (fun r => t1 <=? snd r) l)));
    fold (SUM (map snd (filter (fun r => t2 <=? snd r) l))); lia.
Qed.

Lemma frame_sum_all (l : list (string * Z)) (t : Z) :
  (forall x, In x (map snd l) -> t <= x) ->
  filter (fun r => t <=? snd r) l = l.
Proof.
  induction l as [|[k v] l IH]; simpl; intros H; [reflexivity|].
  assert (t <= v) by (apply H; now left).
  destruct (Z.leb_spec t v); [|lia]. f_equal. apply IH. intros; apply H; now right.
Qed.

Lemma strongly_sorted_last (out : list RevconRow) (pre : list RevconRow) (row : RevconRow) :
  StronglySorted (fun a b => total_revenue b <= total_revenue a) out ->
  out = (pre ++ [row])%list ->
  forall r, In r out -> total_revenue row <= total_revenue r.
Proof.
  intros Hs ->. induction pre as [|x pre IH]; simpl in *.
  - intros r [<-|[]]. lia.
  - inversion Hs as [|? ? Hs' Hall]; subst. rewrite Forall_forall in Hall.
    intros r [<-|Hr]; [|now apply IH].
    apply Hall. apply in_or_app. right. now left.
Qed.

Lemma percentage_sorted (T : Table) (g : Z) (l : list RevconRow) :
  0 < g ->
  (forall r, In r T -> 0 <= credit r) ->
  (forall row, In row l ->
     cumulative_percentage row =
       Some (Finite (inject_Z (cumulative_revenue row) / inject_Z g * 100)%Q) /\
     cumulative_revenue row =
       SUM (map snd (filter (fun r => total_revenue row <=? snd r)
                            (CustomerTotalRevenue T)))) ->
  StronglySorted (fun a b => total_revenue b <= total_revenue a) l ->
  StronglySorted (fun a b => percentage_le (cumulative_percentage a)
                                           (cumulative_percentage b)) l.
Proof.
  intros Hg Hnn Hrows. induction 1 as [|a l Hs IH Hall]; constructor.
  - apply IH. intros r Hr. apply Hrows. now right.
  - rewrite Forall_forall in *. intros b Hb.
    destruct (Hrows a (or_introl eq_refl)) as (Hpa & Hca).
    destruct (Hrows b (or_intror Hb)) as (Hpb & Hcb).
    rewrite Hpa, Hpb. simpl. apply pct_mono; [|assumption].
    rewrite Hca, Hcb.
    apply frame_sum_antitone; [now apply CustomerTotalRevenue_nonneg | now apply Hall].
Qed.

(** C3. When no credit is negative and the grand total is positive, every
    row of a revenue-concentration output has a cumulative_percentage, the
    percentages never decrease from one row to the rows after it, and the
    last row's percentage is 100. *)
Theorem revcon_percentage_spec (T : Table) (out : list RevconRow)
    (Hout : revcon_output T out)
    (Hnn : forall r, In r T -> 0 <= credit r)
    (Hpos : exists g, grand_total T = Some g /\ 0 < g) :
  StronglySorted (fun a b => percentage_le (cumulative_percentage a)
                                           (cumulative_percentage b)) out /\
  out <> [] /\
  forall pre row, out = (pre ++ [row])%list ->
    exists q, cumulative_percentage row = Some (Finite q) /\ (q == 100)%Q.
Proof.
  destruct Hpos as (g & Hg & Hgpos).
  pose proof (revcon_output_strongly_sorted T out Hout) as Hs.
  destruct Hout as (Hp & Hsorted).
  assert (Hpct : forall row, In row out ->
            cumulative_percentage row =
              Some (Finite (inject_Z (cumulative_revenue row) / inject_Z g * 100)%Q)).
  { intros row Hin. apply (Permutation_in _ (Permutation_sym Hp)) in Hin.
    rewrite (revcon_rows_percentage T row Hin), Hg. simpl.
    destruct (Z.eqb_spec g 0); [lia | reflexivity]. }
  assert (Hcum : forall row, In row out ->
            cumulative_revenue row =
              SUM (map snd (filter (fun r => total_revenue row <=? snd r)
                                   (CustomerTotalRevenue T)))).
  { intros row Hin. apply revcon_rows_cumulative.
    now apply (Permutation_in _ (Permutation_sym Hp)). }
  assert (Hgsum : g = SUM (map snd (CustomerTotalRevenue T)) /\
                  CustomerTotalRevenue T <> []).
  { unfold grand_total, SUM_scalar in Hg.
    destruct (CustomerTotalRevenue T) as [|x l]; simpl in Hg; [discriminate|].
    inversion Hg. split; [reflexivity | discriminate]. }
  destruct Hgsum as (Hgsum & Hne).
  split; [|split].
  - apply (percentage_sorted T g); auto.
  - intros ->. apply Permutation_sym, Permutation_nil in Hp.
    apply Hne. unfold revcon_rows, RunningTotal in Hp.
    now apply map_eq_nil, map_eq_nil in Hp.
  - intros pre row E.
    assert (Hin : In row out) by (rewrite E; apply in_or_app; right; now left).
    eexists. split; [apply Hpct, Hin|].
    rewrite (Hcum row Hin), frame_sum_all, <- Hgsum; [now apply pct_full|].
    intros x Hx. rewrite <- revcon_rows_totals in Hx.
    apply in_map_iff in Hx as (r & <- & Hr).
    apply (strongly_sorted_last out pre row Hs E).
    now apply (Permutation_in _ Hp).
Qed.

Lemma revcon_percentage_spec_witness :
  StronglySorted (fun a b => percentage_le (cumulative_percentage a)
                                           (cumulative_percentage b))
                 (revcon example_table) /\
  revcon example_table <> [] /\
  forall pre row, revcon example_table = (pre ++ [row])%list ->
    exists q, cumulative_percentage row = Some (Finite q) /\ (q == 100)%Q.
Proof.
  apply (revcon_percentage_spec example_table (revcon example_table)).
  - apply revcon_is_output.
  - intros r Hr. simpl in Hr.
    repeat (destruct Hr as [<-|Hr]; [simpl; lia|]). destruct Hr.
  - exists 350. split; [reflexivity | lia].
Defined.

(** ** The script, widget by widget *)

Lemma widgets_by_key : widgets = map widget_for all_keys.
Proof. reflexivity. Qed.

Lemma widget_run (k : Key) (con : Connection) (i : Inputs) (p : Page) :
  widget_for k con i p =
  (match con k with inl e => inl e | inr _ => inr tt end,
   mkPage (elements p ++ map (pair (column_of k)) (rendering k i (con k)))
          (executed p ++ [SQL (table_name i) k])).
Proof.
  destruct k; cbv [widget_for funnel_widget revcon_widget attach_widget basket_widget
                   timetosvc_widget trends_widget bind st run_sql when ret rendering body
                   funnel_body revcon_body attach_body basket_body timetosvc_body
                   trends_body column_of elements executed];
    destruct (con _) as [e|r]; try reflexivity;
    repeat match goal with
           | |- context [if ?b then _ else _] => destruct b
           end;
    cbn [map app]; rewrite <- ?app_assoc; reflexivity.
Qed.

Lemma run_keys (con : Connection) (i : Inputs) (ks : list Key) (p : Page) :
  fold_right (fun w rest => w con i ;;; rest) (ret tt) (map widget_for ks) p =
  (match first_error con ks with Some e => inl e | None => inr tt end,
   mkPage (elements p ++
             flat_map (fun k => map (pair (column_of k)) (rendering k i (con k)))
                      (reached con ks))
          (executed p ++ map (SQL (table_name i)) (reached con ks))).
Proof.
  revert p. induction ks as [|k ks IH]; intros p.
  - simpl. unfold ret. rewrite !app_nil_r. now destruct p.
  - cbn [map fold_right]. unfold bind at 1. rewrite widget_run.
    cbn [first_error reached flat_map map]. unfold answers.
    destruct (con k) as [e|r].
    + cbn [flat_map map elements executed]. now rewrite ?app_nil_r.
    + rewrite IH. cbn [elements executed flat_map map].
      now rewrite <- !app_assoc.
Qed.

(** The page a run leaves, in full. *)
Lemma run_with_page (con : Connection) (i : Inputs) :
  run_with con i =
  mkPage (flat_map (fun k => map (pair (column_of k)) (rendering k i (con k)))
                   (reached con all_keys)
          ++ match first_error con all_keys with
             | Some e => [(0%nat, exception e)]
             | None => []
             end)
         (map (SQL (table_name i)) (reached con all_keys)).
Proof.
  unfold run_with, script. rewrite widgets_by_key, run_keys.
  destruct (first_error con all_keys); cbn [elements executed blank_page app];
    now rewrite ?app_nil_r.
Qed.

Lemma run_page (db : Database) (i : Inputs) :
  run db i =
  mkPage (flat_map (fun k => map (pair (column_of k))
                                 (rendering k i (execute db (table_name i) k)))
                   (attempted db (table_name i) all_keys)
          ++ match failure db (table_name i) all_keys with
             | Some e => [(0%nat, exception e)]
             | None => []
             end)
         (map (SQL (table_name i)) (attempted db (table_name i) all_keys)).
Proof. exact (run_with_page (execute db (table_name i)) i). Qed.

Lemma column_of_inj (k k' : Key) : column_of k = column_of k' -> k = k'.
Proof. destruct k, k'; simpl; intros H; congruence. Qed.

Lemma column_of_pos (k : Key) : column_of k <> 0%nat.
Proof. destruct k; discriminate. Qed.

Lemma column_filter_same (c : nat) (es : list Element) :
  map snd (filter (fun e : nat * Element => Nat.eqb (fst e) c) (map (pair c) es)) = es.
Proof.
  induction es as [|x xs IH]; [reflexivity|].
  cbn [map filter fst]. rewrite Nat.eqb_refl. cbn [map snd]. now rewrite IH.
Qed.

Lemma column_filter_other (c c' : nat) (es : list Element) :
  c' <> c ->
  filter (fun e : nat * Element => Nat.eqb (fst e) c) (map (pair c') es) = [].
Proof.
  intros N. apply Nat.eqb_neq in N.
  induction es as [|x xs IH]; [reflexivity|].
  cbn [map filter fst]. now rewrite N.
Qed.

Lemma column_filter (f : Key -> list Element) (k : Key) (l : list Key) :
  NoDup l ->
  map snd (filter (fun e : nat * Element => Nat.eqb (fst e) (column_of k))
                  (flat_map (fun k' => map (pair (column_of k')) (f k')) l))
  = if in_dec Key_dec k l then f k else [].
Proof.
  induction l as [|k' l IH]; intros Hnd; [reflexivity|].
  inversion Hnd as [|? ? Hk' Hnd']; subst.
  cbn [flat_map]. rewrite filter_app, map_app, (IH Hnd').
  assert (Hhead : map snd (filter (fun e : nat * Element => Nat.eqb (fst e) (column_of k))
                                  (map (pair (column_of k')) (f k')))
                  = if Key_dec k' k then f k' else []).
  { destruct (Key_dec k' k) as [->|N].
    - apply column_filter_same.
    - rewrite column_filter_other; [reflexivity|].
      intros E. apply N. now apply column_of_inj. }
  rewrite Hhead.
  destruct (Key_dec k' k) as [->|N].
  - destruct (in_dec Key_dec k l) as [Hin|_]; [contradiction|].
    destruct (in_dec Key_dec k (k :: l)) as [_|Hn]; [apply app_nil_r|].
    exfalso. apply Hn. now left.
  - destruct (in_dec Key_dec k l) as [Hin|Hn];
      destruct (in_dec Key_dec k (k' :: l)) as [Hin'|Hn']; simpl; try reflexivity.
    + exfalso. apply Hn'. now right.
    + destruct Hin' as [E|Hin']; [congruence | contradiction].
Qed.

Lemma reached_prefix (con : Connection) (ks : list Key) :
  exists rest, ks = (reached con ks ++ rest)%list.
Proof.
  induction ks as [|k ks (rest & IH)]; [now exists []|].
  simpl. destruct (answers con k).
  - exists rest. simpl. now rewrite <- IH.
  - now exists ks.
Qed.

Lemma reached_NoDup (con : Connection) : NoDup (reached con all_keys).
Proof.
  destruct (reached_prefix con all_keys) as (rest & E).
  apply (NoDup_app_remove_r _ rest). rewrite <- E.
  unfold all_keys. repeat constructor; simpl; intuition discriminate.
Qed.

Lemma attempted_prefix (db : Database) (T : string) (ks : list Key) :
  exists rest, ks = (attempted db T ks ++ rest)%list.
Proof. apply reached_prefix. Qed.

Lemma attempted_NoDup (db : Database) (T : string) :
  NoDup (attempted db T all_keys).
Proof. apply reached_NoDup. Qed.

(** What a run leaves in the column of [k]. *)
Lemma run_with_column (con : Connection) (i : Inputs) (k : Key) :
  column_elements (column_of k) (run_with con i) =
  if in_dec Key_dec k (reached con all_keys) then rendering k i (con k) else [].
Proof.
  unfold column_elements. rewrite run_with_page. cbn [elements].
  rewrite filter_app, map_app.
  rewrite (column_filter (fun k => rendering k i (con k)) k) by apply reached_NoDup.
  assert (Htail : forall x, filter (fun e : nat * Element => Nat.eqb (fst e) (column_of k))
                              match x with Some e => [(0%nat, exception e)] | None => [] end
                            = []).
  { intros [e|]; [|reflexivity]. simpl. destruct k; reflexivity. }
  rewrite Htail. apply app_nil_r.
Qed.

Lemma run_column (db : Database) (i : Inputs) (k : Key) :
  column_elements (column_of k) (run db i) =
  if in_dec Key_dec k (attempted db (table_name i) all_keys)
  then rendering k i (execute db (table_name i) k)
  else [].
Proof. exact (run_with_column (execute db (table_name i)) i k). Qed.

Lemma same_identifier_refl (a : string) : same_identifier a a = true.
Proof. unfold same_identifier. apply String.eqb_refl. Qed.

Lemma execute_database_of (name : string) (T : Table) (k : Key) :
  execute (database_of name T) name k = inr (evaluate k T).
Proof.
  unfold execute, database_of, find_table. rewrite same_identifier_refl.
  destruct k; reflexivity.
Qed.

Lemma attempted_database_of (name : string) (T : Table) :
  attempted (database_of name T) name all_keys = all_keys.
Proof.
  unfold attempted, all_keys. cbn [reached]. unfold answers.
  now rewrite !execute_database_of.
Qed.

(** With all four columns present every widget is written in full. *)
Lemma run_column_database_of (name : string) (T : Table) (i : Inputs) (k : Key) :
  table_name i = name ->
  column_elements (column_of k) (run (database_of name T) i)
  = subheader (title_of k) :: body k i (evaluate k T).
Proof.
  intros E. rewrite run_column, E, attempted_database_of, execute_database_of.
  destruct (in_dec Key_dec k all_keys) as [_|Hn]; [reflexivity|].
  exfalso. apply Hn. destruct k; simpl; tauto.
Qed.

(** ** Training attach rate *)




Lemma same_members_same_length (l l' : list string) :
  NoDup l -> NoDup l' -> (forall a, In a l <-> In a l') ->
  List.length l = List.length l'.
Proof.
  intros H H' Hiff. apply Permutation_length. now apply NoDup_Permutation.
Qed.





(** ** Service basket *)

Lemma string_ltb_irrefl (a : string) : (a <? a)%string = false.
Proof.
  unfold String.ltb. pose proof (String.compare_antisym a a) as H.
  destruct (a ?= a)%string; simpl in H; try discriminate; reflexivity.
Qed.

Lemma string_ltb_asym (a b : string) : (a <? b)%string = true -> (b <? a)%string = false.
Proof.
  unfold String.ltb. rewrite (String.compare_antisym b a).
  destruct (a ?= b)%string; simpl; intros; try discriminate; reflexivity.
Qed.

Lemma string_ltb_total (a b : string) :
  a <> b -> (a <? b)%string = true \/ (b <? a)%string = true.
Proof.
  intros N. unfold String.ltb. rewrite (String.compare_antisym b a).
  destruct (a ?= b)%string eqn:E; simpl; auto.
  apply String.compare_eq_iff in E. contradiction.
Qed.

Lemma NoDup_map_injective_on {A B} (f : A -> B) (l : list A) (x y : A) :
  NoDup (map f l) -> In x l -> In y l -> f x = f y -> x = y.
Proof.
  induction l as [|z l IH]; simpl; intros Hnd Hx Hy E; [tauto|].
  inversion Hnd as [|? ? Hz Hnd']; subst.
  destruct Hx as [->|Hx], Hy as [->|Hy]; auto.
  - exfalso. apply Hz. rewrite E. now apply in_map.
  - exfalso. apply Hz. rewrite <- E. now apply in_map.
Qed.

(** The accounts counted in the group of a pair. *)
Lemma basket_group_accounts (T : Table) (t1 t2 a : string) :
  In a (DISTINCT string_dec
          (map (fun p : TransactionRecord * TransactionRecord => account (fst p))
               (filter (fun p => if string_pair_dec (type (fst p), type (snd p)) (t1, t2)
                                 then true else false)
                  (JOIN (fun a1 a2 => (account a1 =? account a2)%string
                                      && (type a1 <? type a2)%string) T T))))
  <-> (t1 <? t2)%string = true /\ has_type T a t1 /\ has_type T a t2.
Proof.
  unfold DISTINCT, has_type. rewrite nodup_In, in_map_iff. split.
  - intros ([r1 r2] & E & Hp). simpl in E. apply filter_In in Hp as (Hj & Hk).
    simpl in Hk. destruct (string_pair_dec _ _) as [Ek|]; [|discriminate].
    inversion Ek; subst. apply in_JOIN in Hj as (H1 & H2 & Hon).
    apply andb_true_iff in Hon as (Ha & Hlt). apply String.eqb_eq in Ha.
    split; [assumption|]. split; [exists r1 | exists r2]; auto.
  - intros (Hlt & (r1 & H1 & A1 & E1) & (r2 & H2 & A2 & E2)).
    exists (r1, r2). split; [assumption|]. apply filter_In. split.
    + apply in_JOIN. repeat split; try assumption.
      rewrite E1, E2, Hlt, A1, A2, String.eqb_refl. reflexivity.
    + simpl. rewrite E1, E2. destruct (string_pair_dec _ _); congruence.
Qed.

Lemma in_basket_rows (T : Table) (row : BasketRow) :
  In row (basket_rows T) <->
  (service_1 row <? service_2 row)%string = true /\
  co_occur T (service_1 row) (service_2 row) /\
  number_of_customers row =
    COUNT (DISTINCT string_dec
      (map (fun p : TransactionRecord * TransactionRecord => account (fst p))
         (filter (fun p => if string_pair_dec (type (fst p), type (snd p))
                                              (service_1 row, service_2 row)
                           then true else false)
            (JOIN (fun a1 a2 => (account a1 =? account a2)%string
                                && (type a1 <? type a2)%string) T T)))).
Proof.
  unfold basket_rows. rewrite in_map_iff. split.
  - intros ([[t1 t2] g] & <- & Hin). simpl.
    apply in_GROUP_BY in Hin as (Hk & ->).
    apply in_map_iff in Hk as ([r1 r2] & E & Hj). simpl in E. inversion E; subst.
    apply in_JOIN in Hj as (H1 & H2 & Hon).
    apply andb_true_iff in Hon as (Ha & Hlt). apply String.eqb_eq in Ha.
    split; [assumption|]. split; [|reflexivity].
    exists (account r1). split; [exists r1 | exists r2]; auto.
  - intros (Hlt & (a & (r1 & H1 & A1 & E1) & (r2 & H2 & A2 & E2)) & Hn).
    eexists ((service_1 row, service_2 row), _). split; cycle 1.
    + apply in_GROUP_BY. split; [|reflexivity]. apply in_map_iff.
      exists (r1, r2). simpl. split; [now rewrite E1, E2|].
      apply in_JOIN. repeat split; try assumption.
      rewrite E1, E2, Hlt, A1, A2, String.eqb_refl. reflexivity.
    + simpl. rewrite <- Hn. now destruct row.
Qed.

Lemma basket_rows_NoDup (T : Table) :
  NoDup (map (fun r => (service_1 r, service_2 r)) (basket_rows T)).
Proof.
  unfold basket_rows. rewrite map_map. simpl.
  rewrite <- (map_map fst (fun k : string * string => (fst k, snd k))).
  rewrite (map_ext _ (fun k => k)) by (now intros []). rewrite map_id.
  apply (GROUP_BY_NoDup string_pair_dec).
Qed.

Lemma by_customers_desc_total (a b : BasketRow) :
  by_customers_desc a b = false -> by_customers_desc b a = true.
Proof. unfold by_customers_desc. lia. Qed.

Lemma basket_is_output (T : Table) : basket_output T (basket T).
Proof. apply ORDER_BY_ordered_by, by_customers_desc_total. Qed.

(** What holds of every output of the service-basket query, whichever way
    rows of equal count are arranged. *)
Lemma basket_output_spec (T : Table) (out : list BasketRow)
    (Hout : basket_output T out) :
  (forall row, In row out ->
     service_1 row <> service_2 row /\
     co_occur T (service_1 row) (service_2 row) /\
     forall accounts, NoDup accounts ->
       (forall a, In a accounts <->
                  has_type T a (service_1 row) /\ has_type T a (service_2 row)) ->
       number_of_customers row = Z.of_nat (List.length accounts)) /\
  (forall t1 t2, t1 <> t2 -> co_occur T t1 t2 ->
     exists row, In row out /\ row_of_pair row t1 t2 /\
       forall row', In row' out -> row_of_pair row' t1 t2 -> row' = row) /\
  (forall row row', In row out -> In row' out ->
     ~ (service_1 row' = service_2 row /\ service_2 row' = service_1 row)) /\
  StronglySorted (fun a b => number_of_customers b <= number_of_customers a) out.
Proof.
  destruct Hout as (Hp & Hs).
  assert (Hin : forall row, In row out <-> In row (basket_rows T)).
  { intros row. split; apply Permutation_in; [now apply Permutation_sym | assumption]. }
  assert (Hlt : forall row, In row out -> (service_1 row <? service_2 row)%string = true).
  { intros row H. now apply Hin, in_basket_rows in H. }
  assert (Hnd : NoDup (map (fun r => (service_1 r, service_2 r)) out)).
  { eapply Permutation_NoDup; [apply Permutation_map; exact Hp | apply basket_rows_NoDup]. }
  split; [|split; [|split]].
  - intros row H. pose proof (Hlt row H) as Hl.
    apply Hin, in_basket_rows in H as (_ & Hco & Hn). split; [|split; [assumption|]].
    + intros E. rewrite E, string_ltb_irrefl in Hl. discriminate.
    + intros accounts Hnda Hacc. rewrite Hn. unfold COUNT. f_equal.
      apply same_members_same_length; [apply NoDup_nodup | assumption|].
      intros a. rewrite basket_group_accounts, Hacc. tauto.
  - intros t1 t2 Hne Hco.
    assert (Hex : forall u1 u2, (u1 <? u2)%string = true -> co_occur T u1 u2 ->
              exists row, In row out /\ service_1 row = u1 /\ service_2 row = u2).
    { intros u1 u2 Hl Hc. eexists (mkBasket u1 u2 _). split; [|split; reflexivity].
      apply Hin, in_basket_rows. simpl. auto. }
    assert (Hsym : co_occur T t2 t1) by (destruct Hco as (a & ? & ?); exists a; auto).
    assert (Huniq : forall row row', In row out -> In row' out ->
              row_of_pair row t1 t2 -> row_of_pair row' t1 t2 -> row' = row).
    { intros row row' H H' Hr Hr'.
      apply (NoDup_map_injective_on (fun r => (service_1 r, service_2 r)) out); auto.
      pose proof (Hlt row H) as L. pose proof (Hlt row' H') as L'.
      destruct Hr as [(A & B)|(A & B)], Hr' as [(A' & B')|(A' & B')];
        try congruence; rewrite A, B in L; rewrite A', B' in L';
        apply string_ltb_asym in L; congruence. }
    destruct (string_ltb_total t1 t2 Hne) as [Hl|Hl].
    + destruct (Hex t1 t2 Hl Hco) as (row & H & A & B).
      exists row. split; [assumption|]. split; [left; auto|].
      intros row' H' Hr'. apply Huniq; auto. left; auto.
    + destruct (Hex t2 t1 Hl Hsym) as (row & H & A & B).
      exists row. split; [assumption|]. split; [right; auto|].
      intros row' H' Hr'. apply Huniq; auto. right; auto.
  - intros row row' H H' (A & B).
    pose proof (Hlt row H) as L. pose proof (Hlt row' H') as L'.
    rewrite A, B in L'. apply string_ltb_asym in L. congruence.
  - apply Sorted_StronglySorted.
    + intros a b c. lia.
    + eapply Sorted_ind with (P := fun l => Sorted _ l); [constructor| |exact Hs].
      intros a l _ IH Hhd. constructor; [exact IH|].
      destruct Hhd as [|b l' Hab]; constructor.
      unfold by_customers_desc in Hab. lia.
Qed.

(** C5. Each row of the service-basket result pairs two distinct types
    that co-occur in some account, the smaller type first, and counts the
    distinct accounts that have a transaction of both.  Every unordered pair
    of distinct co-occurring types has exactly one row, no row has its
    mirror image in the result, and the rows come by count descending: on
    [pair_table] the pair shared by two accounts comes before the pair of
    one account, though the grouping meets them the other way round. *)
Theorem service_basket_spec (T : Table) :
  (forall row, In row (basket T) ->
     service_1 row <> service_2 row /\
     co_occur T (service_1 row) (service_2 row) /\
     forall accounts, NoDup accounts ->
       (forall a, In a accounts <->
                  has_type T a (service_1 row) /\ has_type T a (service_2 row)) ->
       number_of_customers row = Z.of_nat (List.length accounts)) /\
  (forall t1 t2, t1 <> t2 -> co_occur T t1 t2 ->
     exists row, In row (basket T) /\ row_of_pair row t1 t2 /\
       forall row', In row' (basket T) -> row_of_pair row' t1 t2 -> row' = row) /\
  (forall row row', In row (basket T) -> In row' (basket T) ->
     ~ (service_1 row' = service_2 row /\ service_2 row' = service_1 row)) /\
  StronglySorted (fun a b => number_of_customers b <= number_of_customers a) (basket T) /\
  basket_rows pair_table =
    [ mkBasket "FME Licenses" "FME Training" 1;
      mkBasket "FME Consulting" "FME Licenses" 2 ] /\
  basket pair_table =
    [ mkBasket "FME Consulting" "FME Licenses" 2;
      mkBasket "FME Licenses" "FME Training" 1 ].
Proof.
  destruct (basket_output_spec T (basket T) (basket_is_output T)) as (H1 & H2 & H3 & H4).
  repeat (split; [assumption|]). split; reflexivity.
Qed.

(** ** Undefined metrics *)

Lemma filter_none {A} (f : A -> bool) (l : list A) :
  (forall x, In x l -> f x = false) -> filter f l = [].
Proof.
  induction l as [|x l IH]; simpl; intros H; [reflexivity|].
  rewrite (H x) by now left. apply IH. intros; apply H; now right.
Qed.







Lemma body_shows_table (k : Key) (i : Inputs) (r : Result k) :
  exists df, In (dataframe df) (body k i r).
Proof.
  destruct k; cbn [body] in *;
    unfold funnel_body, revcon_body, attach_body, basket_body, timetosvc_body, trends_body;
    repeat match goal with
           | |- context [if ?b then _ else _] => destruct b
           end;
    eexists; simpl; eauto 6.
Qed.

Lemma rendering_no_exception (k : Key) (i : Inputs) (out : Exn + Result k) (e : Exn) :
  ~ In (exception e) (rendering k i out).
Proof.
  intros Hin. destruct out as [e0|r]; cbn [rendering] in Hin.
  - destruct Hin as [Hin|[]]; discriminate.
  - destruct Hin as [Hin|Hin]; [discriminate|].
    destruct k; cbn [body] in Hin;
      unfold funnel_body, revcon_body, attach_body, basket_body, timetosvc_body,
             trends_body in Hin;
      repeat match type of Hin with
             | context [if ?b then _ else _] => destruct b
             end;
      simpl in Hin; intuition discriminate.
Qed.





(** ** A failing query *)

Lemma first_failure (con : Connection) (e : Exn)
    (ks1 : list Key) (k : Key) (ks2 : list Key) :
  (forall k', In k' ks1 -> answers con k' = true) ->
  con k = inl e ->
  reached con (ks1 ++ k :: ks2) = (ks1 ++ [k])%list /\
  first_error con (ks1 ++ k :: ks2) = Some e.
Proof.
  intros Hok Hk. induction ks1 as [|k1 ks1 IH]; cbn [app reached first_error].
  - unfold answers. now rewrite Hk.
  - assert (H1 : answers con k1 = true) by (apply Hok; now left).
    destruct IH as (IHa & IHf); [intros; apply Hok; now right|].
    rewrite H1, IHa. unfold answers in H1.
    destruct (con k1); [discriminate | auto].
Qed.

Lemma all_keys_split (k : Key) :
  all_keys = (firstn (column_of k - 1) all_keys ++ k :: skipn (column_of k) all_keys)%list
  /\ (firstn (column_of k - 1) all_keys ++ [k])%list = firstn (column_of k) all_keys.
Proof. destruct k; split; reflexivity. Qed.

Lemma in_firstn_all_keys (k' : Key) (n : nat) :
  In k' (firstn n all_keys) <-> (column_of k' <= n)%nat.
Proof.
  unfold all_keys.
  do 9 (destruct n as [|n]; [destruct k'; simpl; intuition (discriminate || lia)|]).
  destruct k'; simpl; intuition lia.
Qed.

(** C8, as the code has it.  Nothing in the script catches what a query
    raises.  When query [k] is the first that the engine fails, the queries
    up to [k] have been handed to the engine, in order, and no other; each
    widget before that of [k] is written in full, subheader, chart or metric
    and table, from what its query returned; the widget of [k] stops at its
    subheader; the exception is put on the page after all that; and no
    later widget is written. *)
Theorem first_failure_ends_run (con : Connection) (i : Inputs) (k : Key) (e : Exn)
    (Hfail : con k = inl e)
    (Hfirst : forall k', (column_of k' < column_of k)%nat -> answers con k' = true) :
  let p := run_with con i in
  (exists es, elements p = (es ++ [(0%nat, exception e)])%list /\
              forall c e', ~ In (c, exception e') es) /\
  executed p = map (SQL (table_name i)) (firstn (column_of k) all_keys) /\
  (forall k' r, (column_of k' < column_of k)%nat -> con k' = inr r ->
     column_elements (column_of k') p = subheader (title_of k') :: body k' i r) /\
  (forall k', (column_of k' < column_of k)%nat -> rendered k' p) /\
  column_elements (column_of k) p = [subheader (title_of k)] /\
  (forall k', (column_of k < column_of k')%nat -> column_elements (column_of k') p = []).
Proof.
  intros p. subst p.
  destruct (all_keys_split k) as (Hsplit & Hfirstn).
  destruct (first_failure con e
              (firstn (column_of k - 1) all_keys) k (skipn (column_of k) all_keys))
    as (Hatt & Hfl); [|assumption|].
  { intros k' Hin. apply Hfirst. apply in_firstn_all_keys in Hin.
    pose proof (column_of_pos k). lia. }
  rewrite <- Hsplit, Hfirstn in Hatt. rewrite <- Hsplit in Hfl.
  assert (Hcol : forall k',
            column_elements (column_of k') (run_with con i) =
            if in_dec Key_dec k' (firstn (column_of k) all_keys)
            then rendering k' i (con k') else []).
  { intros k'. now rewrite run_with_column, Hatt. }
  assert (Hfull : forall k' r, (column_of k' < column_of k)%nat -> con k' = inr r ->
            column_elements (column_of k') (run_with con i)
            = subheader (title_of k') :: body k' i r).
  { intros k' r Hlt Hr. rewrite Hcol, Hr.
    destruct (in_dec Key_dec k' _) as [_|Hn]; [reflexivity|].
    exfalso. apply Hn. apply in_firstn_all_keys. lia. }
  split; [|split; [|split; [|split; [|split]]]].
  - rewrite run_with_page, Hfl. cbn [elements]. eexists. split; [reflexivity|].
    intros c e' Hin. apply in_flat_map in Hin as (k' & _ & Hin).
    apply in_map_iff in Hin as (x & Hx & Hin). inversion Hx; subst x.
    now apply rendering_no_exception in Hin.
  - rewrite run_with_page, Hatt. reflexivity.
  - exact Hfull.
  - intros k' Hlt. unfold rendered.
    specialize (Hfirst k' Hlt). unfold answers in Hfirst.
    destruct (con k') as [|r] eqn:Hr; [discriminate|].
    rewrite (Hfull k' r Hlt Hr).
    destruct (body_shows_table k' i r) as (df & Hdf). exists df. now right.
  - rewrite Hcol, Hfail.
    destruct (in_dec Key_dec k _) as [_|Hn]; [reflexivity|].
    exfalso. apply Hn. apply in_firstn_all_keys. lia.
  - intros k' Hlt. rewrite Hcol.
    destruct (in_dec Key_dec k' _) as [Hin|_]; [|reflexivity].
    apply in_firstn_all_keys in Hin. lia.
Qed.

Lemma first_failure_ends_run_witness :
  let p := run_with (text_dates example_table) default_inputs in
  executed p = map (SQL "analysis_duckdb")
                   [K_consulting; K_training; K_esri; K_revcon; K_attach; K_basket;
                    K_timetosvc] /\
  column_elements 1 p =
    subheader (title_of K_consulting)
      :: body K_consulting default_inputs (consulting example_table) /\
  column_elements 6 p =
    subheader (title_of K_basket) :: body K_basket default_inputs (basket example_table) /\
  column_elements 7 p = [subheader (title_of K_timetosvc)] /\
  column_elements 8 p = [].
Proof.
  assert (Hfail : text_dates example_table K_timetosvc = inl no_such_function)
    by reflexivity.
  assert (Hfirst : forall k', (column_of k' < column_of K_timetosvc)%nat ->
                     answers (text_dates example_table) k' = true).
  { intros k' H. destruct k'; simpl in H; try lia; reflexivity. }
  destruct (first_failure_ends_run (text_dates example_table) default_inputs K_timetosvc
              no_such_function Hfail Hfirst) as (_ & H2 & H3 & _ & H5 & H6).
  split; [exact H2|].
  split; [apply (H3 K_consulting); [simpl; lia | reflexivity]|].
  split; [apply (H3 K_basket); [simpl; lia | reflexivity]|].
  split; [exact H5|].
  apply (H6 K_trends). simpl. lia.
Defined.

(** C8 as stated fails: on a table without [date] and [credit] the
    attach-rate query would succeed, but the consulting query raises before
    it and the script ends there. *)
Lemma one_failure_counterexample :
  ~ queries_run_independently narrow_database default_inputs.
Proof.
  intros H. destruct (H K_attach eq_refl) as (_ & df & Hdf).
  vm_compute in Hdf. exact Hdf.
Qed.

(** ** What the tables show *)



(** The basket widget on any table: the table it shows is cut to the top N
    pairs. *)
Lemma basket_table_is_cut (T : Table) (i : Inputs) :
  basket T <> [] ->
  exists fig df,
    column_elements 6 (run (database_of (table_name i) T) i)
      = [subheader "Service Combinations (Top N)"; plotly_chart fig; dataframe df] /\
    columns df = ["service_1"; "service_2"; "number_of_customers"; "pair"] /\
    List.length (data df) = Nat.min (Z.to_nat (top_n_pairs i)) (List.length (basket T)).
Proof.
  intros Hne. change 6%nat with (column_of K_basket).
  rewrite (run_column_database_of (table_name i) T i K_basket eq_refl).
  cbn [title_of body evaluate]. unfold basket_body.
  destruct (basket T) as [|row rows] eqn:Eb; [congruence|].
  cbn [df_basket empty columns data map negb].
  eexists _, _. split; [reflexivity|]. split; [reflexivity|].
  cbn [df_basket_pair data]. unfold head, sort_values_desc.
  rewrite length_map, length_firstn. f_equal.
  rewrite <- (Permutation_length (ORDER_BY_perm _ _)).
  cbn [List.length]. now rewrite length_map.
Qed.

(** C9 at the failing input: six pairs and N = 5.  The query returns six
    rows; the table under the chart has five, and a fourth column. *)
Theorem basket_table_loses_rows :
  let p := run (database_of "analysis_duckdb" four_service_table) five_pairs in
  List.length (data (df_basket (basket four_service_table))) = 6%nat /\
  exists fig df,
    column_elements 6 p
      = [subheader "Service Combinations (Top N)"; plotly_chart fig; dataframe df] /\
    columns df = ["service_1"; "service_2"; "number_of_customers"; "pair"] /\
    List.length (data df) = 5%nat /\
    df <> df_basket (basket four_service_table).
Proof.
  split; [reflexivity|].
  eexists _, _. split; [vm_compute; reflexivity|].
  split; [reflexivity|]. split; [reflexivity|]. discriminate.
Qed.

(** ** The table name *)

Lemma table_name_in_every_text (T : string) (k : Key) :
  exists pre post, SQL T k = pre ++ "FROM " ++ T ++ post.
Proof.
  destruct k; cbn [SQL].
  - exists "
WITH FirstInitialPurchase AS (
  SELECT account, MIN(date) AS first_initial_date
  ",
      ("
  WHERE type IN ('FME Licenses', 'FME Subscription')
  GROUP BY account
), InitialSpend AS (
  SELECT account, SUM(credit) AS total_license_subscription_spend
  FROM " ++ T ++ "
  WHERE type IN ('FME Licenses', 'FME Subscription')
  GROUP BY account
), FollowUpConsultingSpend AS (
  SELECT fip.account, SUM(ad.credit) AS total_fme_consulting_spend
  FROM " ++ T ++ " AS ad
  JOIN FirstInitialPurchase AS fip ON ad.account = fip.account
  WHERE ad.type = 'FME Consulting' AND ad.date > fip.first_initial_date
  GROUP BY fip.account
)
SELECT i.account, i.total_license_subscription_spend, f.total_fme_consulting_spend
FROM InitialSpend AS i
JOIN FollowUpConsultingSpend AS f ON i.account = f.account
ORDER BY i.account;").
    reflexivity.
  - exists "
WITH FirstInitialPurchase AS (
  SELECT account, MIN(date) AS first_initial_date
  ",
      ("
  WHERE type IN ('FME Licenses', 'FME Subscription')
  GROUP BY account
), InitialSpend AS (
  SELECT account, SUM(credit) AS total_license_subscription_spend
  FROM " ++ T ++ "
  WHERE type IN ('FME Licenses', 'FME Subscription')
  GROUP BY account
), FollowUpTrainingSpend AS (
  SELECT fip.account, SUM(ad.credit) AS total_fme_training_spend
  FROM " ++ T ++ " AS ad
  JOIN FirstInitialPurchase AS fip ON ad.account = fip.account
  WHERE ad.type = 'FME Training' AND ad.date > fip.first_initial_date
  GROUP BY fip.account
)
SELECT i.account, i.total_license_subscription_spend, f.total_fme_training_spend
FROM InitialSpend AS i
JOIN FollowUpTrainingSpend AS f ON i.account = f.account
ORDER BY i.account;").
    reflexivity.
  - exists "
WITH FirstInitialPurchase AS (
  SELECT account, MIN(date) AS first_initial_date
  ",
      ("
  WHERE type IN ('FME Licenses', 'FME Subscription')
  GROUP BY account
), InitialSpend AS (
  SELECT account, SUM(credit) AS total_license_subscription_spend
  FROM " ++ T ++ "
  WHERE type IN ('FME Licenses', 'FME Subscription')
  GROUP BY account
), FollowUpEsRiSpend AS (
  SELECT fip.account, SUM(ad.credit) AS total_esri_consulting_spend
  FROM " ++ T ++ " AS ad
  JOIN FirstInitialPurchase AS fip ON ad.account = fip.account
  WHERE ad.type = 'Esri Consulting' AND ad.date > fip.first_initial_date
  GROUP BY fip.account
)
SELECT i.account, i.total_license_subscription_spend, f.total_esri_consulting_spend
FROM InitialSpend AS i
JOIN FollowUpEsRiSpend AS f ON i.account = f.account
ORDER BY i.account;").
    reflexivity.
  - exists "
WITH CustomerTotalRevenue AS (
  SELECT account, SUM(credit) AS total_revenue
  ",
      ("
  GROUP BY account
), RunningTotal AS (
  SELECT account, total_revenue,
         SUM(total_revenue) OVER (ORDER BY total_revenue DESC) AS cumulative_revenue
  FROM CustomerTotalRevenue
)
SELECT account, total_revenue, cumulative_revenue,
       cumulative_revenue / (SELECT SUM(total_revenue) FROM CustomerTotalRevenue) * 100 AS cumulative_percentage
FROM RunningTotal
ORDER BY total_revenue DESC;").
    reflexivity.
  - exists "
WITH CoreProductCustomers AS (
  SELECT DISTINCT account ",
      ("
  WHERE type IN ('FME Licenses', 'FME Subscription')
), AttachServiceCustomers AS (
  SELECT DISTINCT account FROM " ++ T ++ "
  WHERE type = 'FME Training'
)
SELECT (SELECT COUNT(*) FROM AttachServiceCustomers WHERE account IN (SELECT account FROM CoreProductCustomers)) * 100.0 /
       (SELECT COUNT(*) FROM CoreProductCustomers) AS training_attach_rate_percentage;").
    reflexivity.
  - exists "
SELECT a1.type AS service_1, a2.type AS service_2, COUNT(DISTINCT a1.account) AS number_of_customers
",
      (" a1
JOIN " ++ T ++ " a2 ON a1.account = a2.account AND a1.type < a2.type
GROUP BY service_1, service_2
ORDER BY number_of_customers DESC;").
    reflexivity.
  - exists "
WITH FirstPurchase AS (
  SELECT account, MIN(date) AS first_date
  ",
      ("
  WHERE type IN ('FME Licenses', 'FME Subscription')
  GROUP BY account
), FirstFollowUp AS (
  SELECT t.account, MIN(t.date) AS first_training_date
  FROM " ++ T ++ " t
  JOIN FirstPurchase fp ON t.account = fp.account
  WHERE t.type = 'FME Training' AND t.date > fp.first_date
  GROUP BY t.account
)
SELECT AVG(first_training_date - first_date) AS avg_days_to_training
FROM FirstPurchase fp
JOIN FirstFollowUp ff ON fp.account = ff.account;").
    reflexivity.
  - exists "
SELECT strftime(date, '%Y-%m') AS sales_month, type, SUM(credit) AS monthly_revenue
",
      ("
GROUP BY sales_month, type
ORDER BY sales_month, type;").
    reflexivity.
Qed.

Lemma all_keys_NoDup : NoDup all_keys.
Proof. unfold all_keys. repeat constructor; simpl; intuition discriminate. Qed.

Lemma in_reached_split (con : Connection) (ks1 : list Key) (k : Key) (ks2 : list Key) :
  NoDup (ks1 ++ k :: ks2) ->
  In k (reached con (ks1 ++ k :: ks2)) <-> forall k', In k' ks1 -> answers con k' = true.
Proof.
  induction ks1 as [|a ks1 IH]; cbn [app reached]; intros Hnd.
  - split; [intros _ k' [] | intros _; now left].
  - inversion Hnd as [|? ? Ha Hnd']; subst. specialize (IH Hnd').
    assert (Hak : a <> k).
    { intros ->. apply Ha. apply in_or_app. right. now left. }
    split.
    + intros [E|Hin]; [contradiction|].
      destruct (answers con a) eqn:Ea; [|destruct Hin].
      intros k' [<-|Hk']; [assumption|]. now apply IH.
    + intros H. right. rewrite (H a) by now left.
      apply IH. intros k' Hk'. apply H. now right.
Qed.

(** A query is reached when all the queries before it are answered. *)
Lemma in_reached (con : Connection) (k : Key) :
  In k (reached con all_keys) <->
  forall k', (column_of k' < column_of k)%nat -> answers con k' = true.
Proof.
  destruct (all_keys_split k) as (Hsplit & _).
  pose proof all_keys_NoDup as Hnd. rewrite Hsplit in Hnd |- * at 1.
  rewrite (in_reached_split con _ k _ Hnd).
  pose proof (column_of_pos k) as Hpos.
  split; intros H k' Hk'; apply H.
  - apply in_firstn_all_keys. lia.
  - apply in_firstn_all_keys in Hk'. lia.
Qed.

Lemma append_cancel (s a b : string) : (s ++ a = s ++ b)%string -> a = b.
Proof. induction s as [|c s IH]; simpl; [auto|]. intros E. inversion E. auto. Qed.

Lemma String_tail (c c' : ascii) (s s' : string) : String c s = String c' s' -> s = s'.
Proof. intros E. now inversion E. Qed.

(** The eight texts differ from one another, whatever the table name. *)
Lemma SQL_injective (T : string) (k k' : Key) : SQL T k = SQL T k' -> k = k'.
Proof.
  destruct k, k'; try reflexivity; cbn [SQL]; intros E; exfalso; simpl in E;
    repeat first [ discriminate E | apply String_tail in E | apply append_cancel in E ].
Qed.

Lemma reached_firstn (con : Connection) (ks : list Key) :
  exists n, (n <= List.length ks)%nat /\ (ks <> [] -> 1 <= n)%nat /\
            reached con ks = firstn n ks.
Proof.
  induction ks as [|k ks (n & Hle & _ & IH)].
  - exists 0%nat. repeat split; [lia | congruence].
  - cbn [reached]. destruct (answers con k).
    + exists (S n). cbn [List.length firstn]. rewrite IH. repeat split; lia.
    + exists 1%nat. cbn [List.length firstn]. repeat split; lia.
Qed.

Lemma reached_all (con : Connection) (ks : list Key) :
  (forall k, answers con k = true) -> reached con ks = ks.
Proof.
  intros H. induction ks as [|k ks IH]; [reflexivity|].
  cbn [reached]. now rewrite H, IH.
Qed.

(** C10, as the code has it.  Whatever the table name is, the script
    splices it as it stands after FROM in each of the eight texts and hands
    the texts to the engine in their order: the first always, and each next
    one when the one before raised nothing.  So what reaches the engine is
    the first [n] of the eight texts, with [n] at least one, and all eight
    when no query fails. *)
Theorem table_name_is_interpolated (con : Connection) (i : Inputs) :
  (forall k, exists pre post,
     SQL (table_name i) k = pre ++ "FROM " ++ table_name i ++ post) /\
  (exists n, (1 <= n <= 8)%nat /\
     executed (run_with con i) = map (SQL (table_name i)) (firstn n all_keys)) /\
  (forall k, In (SQL (table_name i) k) (executed (run_with con i)) <->
             forall k', (column_of k' < column_of k)%nat -> answers con k' = true) /\
  ((forall k, answers con k = true) ->
   executed (run_with con i) = map (SQL (table_name i)) all_keys).
Proof.
  split; [intros k; apply table_name_in_every_text|].
  rewrite run_with_page. cbn [executed]. split; [|split].
  - destruct (reached_firstn con all_keys) as (n & Hle & Hpos & E).
    exists n. rewrite E. split; [|reflexivity].
    split; [apply Hpos; discriminate | exact Hle].
  - intros k. rewrite in_map_iff. split.
    + intros (k0 & E & Hin). apply SQL_injective in E. subst k0.
      now apply in_reached.
    + intros H. exists k. split; [reflexivity|]. now apply in_reached.
  - intros H. now rewrite reached_all.
Qed.

(** C10 as stated fails: a name with blanks and a semicolon is not turned
    away, the text built from it is executed. *)
Lemma unchecked_table_name_counterexample : ~ table_name_is_validated.
Proof.
  intros H.
  specialize (H (database_of "analysis_duckdb" example_table) injected_inputs).
  assert (Hex : exists c, In c (list_ascii_of_string (table_name injected_inputs))
                          /\ is_identifier_char c = false).
  { exists ";"%char. split; [simpl; tauto | reflexivity]. }
  specialize (H Hex). rewrite run_page in H. discriminate H.
Qed.

(** ** Days to training: the query *)

(** The Training transactions of [a] after its first core purchase. *)
Lemma first_follow_up_group (T : Table) (a : string) :
  map fst
    (filter (fun p : TransactionRecord * (string * option Z) =>
               if string_dec (account (fst p)) a then true else false)
       (filter (fun p => (type (fst p) =? "FME Training")%string
                         && gt_nullable (date (fst p)) (snd (snd p)))
          (JOIN (fun t fp => (account t =? fst fp)%string) T (FirstPurchase T))))
  = filter (fun r => (account r =? a)%string && (type r =? "FME Training")%string
                     && gt_nullable (date r) (first_core_date T a)) T.
Proof.
  change (FirstPurchase T) with (FirstInitialPurchase T).
  rewrite <- (follow_up_group "FME Training" T a T). f_equal.
  apply filter_ext_in. intros [r [k d]] Hin. apply filter_In in Hin as (Hin & _).
  apply in_JOIN in Hin as (_ & _ & Hon). cbn [fst snd] in *.
  apply String.eqb_eq in Hon. now rewrite Hon.
Qed.

Lemma in_FirstFollowUp (T : Table) (a : string) (d : option Z) :
  In (a, d) (FirstFollowUp T) <->
  filter (fun r => (account r =? a)%string && (type r =? "FME Training")%string
                   && gt_nullable (date r) (first_core_date T a)) T <> [] /\
  d = MIN (map date
             (filter (fun r => (account r =? a)%string && (type r =? "FME Training")%string
                               && gt_nullable (date r) (first_core_date T a)) T)).
Proof.
  unfold FirstFollowUp. rewrite in_map_iff.
  rewrite <- (first_follow_up_group T a). split.
  - intros ([k g] & E & Hin). simpl in E. inversion E; subst.
    apply in_GROUP_BY in Hin as (Hk & ->).
    apply (in_keys_iff_group (fun p : TransactionRecord * (string * option Z) =>
                                account (fst p))) in Hk.
    rewrite map_map. split; [|reflexivity].
    intros H. apply Hk. now apply map_eq_nil in H.
  - intros (Hk & ->). eexists (a, _). split; cycle 1.
    + apply in_GROUP_BY. split; [|reflexivity].
      apply (in_keys_iff_group (fun p : TransactionRecord * (string * option Z) =>
                                  account (fst p))).
      intros H. apply Hk. now rewrite H.
    + simpl. now rewrite map_map.
Qed.

Lemma FirstFollowUp_NoDup (T : Table) : NoDup (map fst (FirstFollowUp T)).
Proof.
  unfold FirstFollowUp. rewrite map_map. simpl.
  apply (GROUP_BY_NoDup string_dec).
Qed.

Lemma first_training_iff (T : Table) (a : string) (d0 d1 : Z) :
  MIN (map date
         (filter (fun r => (account r =? a)%string && (type r =? "FME Training")%string
                           && gt_nullable (date r) (Some d0)) T)) = Some d1
  <-> first_training_after T a d0 d1.
Proof.
  unfold first_training_after. rewrite MIN_spec. simpl.
  assert (Hin : forall r,
            In r (filter (fun r => (account r =? a)%string
                                   && (type r =? "FME Training")%string
                                   && (d0 <? date r)) T)
            <-> In r T /\ account r = a /\ type r = "FME Training" /\ d0 < date r).
  { intros r. rewrite filter_In, !andb_true_iff, !String.eqb_eq, Z.ltb_lt. tauto. }
  split.
  - intros (Hd & Hle). split.
    + apply in_map_iff in Hd as (r & E & Hr). apply Hin in Hr. exists r. tauto.
    + intros r Hr Ha Ht Hlt. apply Hle. apply in_map. apply Hin. auto.
  - intros ((r & Hr & Ha & Ht & Hlt & E) & Hle). split.
    + rewrite <- E. apply in_map. apply Hin. auto.
    + intros x Hx. apply in_map_iff in Hx as (r' & <- & Hr'). apply Hin in Hr'.
      apply Hle; tauto.
Qed.

(** The day gaps the query averages, one per qualifying account. *)
Lemma timetosvc_gaps (T : Table) (l : list ((string * option Z) * (string * option Z))) :
  NoDup (map (fun p => fst (fst p)) l) ->
  exists gaps : list (string * Z),
    NoDup (map fst gaps) /\
    (forall a g, In (a, g) gaps <->
       exists p, In p l /\ fst (fst p) = a
                 /\ minus_nullable (snd (snd p)) (snd (fst p)) = Some g) /\
    non_null (map (fun p => minus_nullable (snd (snd p)) (snd (fst p))) l) = map snd gaps.
Proof.
  induction l as [|p l IH]; intros Hnd.
  - exists []. split; [constructor|]. split; [|reflexivity].
    intros a g. split; [intros [] | intros (p & [] & _)].
  - inversion Hnd as [|? ? Hp Hnd']; subst.
    destruct (IH Hnd') as (gaps & Hg1 & Hg2 & Hg3).
    destruct (minus_nullable (snd (snd p)) (snd (fst p))) as [g0|] eqn:Em.
    + exists ((fst (fst p), g0) :: gaps). split; [|split].
      * simpl. constructor; [|assumption]. intros Hin.
        apply in_map_iff in Hin as ([a g] & E & Hin). simpl in E. subst a.
        apply Hg2 in Hin as (q & Hq & Eq & _). apply Hp. rewrite <- Eq.
        now apply (in_map (fun p => fst (fst p))).
      * intros a g. simpl. rewrite Hg2. split.
        -- intros [E|(q & Hq & Ha & Hm)].
           ++ inversion E; subst. exists p. auto.
           ++ exists q. auto.
        -- intros (q & [->|Hq] & Ha & Hm).
           ++ left. rewrite Em in Hm. inversion Hm. now subst.
           ++ right. exists q. auto.
      * cbn [map non_null flat_map]. rewrite Em. cbn [app]. f_equal. exact Hg3.
    + exists gaps. split; [assumption|]. split.
      * intros a g. rewrite Hg2. split.
        -- intros (q & Hq & H). exists q. split; [now right | exact H].
        -- intros (q & [->|Hq] & Ha & Hm); [congruence|]. exists q. auto.
      * cbn [map non_null flat_map]. rewrite Em. exact Hg3.
Qed.

(** X17. The time-to-training query averages, over the accounts that have a
    Training transaction after their earliest core purchase, the days from
    that purchase to the first such Training transaction. *)
Lemma timetosvc_is_average (T : Table) :
  exists gaps : list (string * Z),
    NoDup (map fst gaps) /\
    (forall a g, In (a, g) gaps <->
       exists d0 d1, earliest_core T a d0 /\ first_training_after T a d0 d1
                     /\ g = d1 - d0) /\
    timetosvc T = AVG (map snd gaps).
Proof.
  destruct (timetosvc_gaps T
              (JOIN (fun fp ff => (fst fp =? fst ff)%string)
                    (FirstPurchase T) (FirstFollowUp T)))
    as (gaps & Hnd & Hin & Hsum).
  { apply JOIN_on_key_NoDup; [apply FirstInitialPurchase_NoDup | apply FirstFollowUp_NoDup]. }
  exists gaps. split; [assumption|]. split; [|unfold timetosvc; now rewrite Hsum].
  intros a g. rewrite Hin. split.
  - intros ([[k od0] [k' od1]] & Hp & Ha & Hm). cbn [fst snd] in *. subst k.
    apply in_JOIN in Hp as (Hfp & Hff & Hon). cbn [fst] in Hon.
    apply String.eqb_eq in Hon. subst k'.
    apply in_FirstInitialPurchase in Hfp as (_ & ->).
    apply in_FirstFollowUp in Hff as (_ & ->).
    destruct (first_core_date T a) as [d0|] eqn:Hd0;
      [|destruct (MIN _); discriminate].
    destruct (MIN _) as [d1|] eqn:Hd1; [|discriminate].
    simpl in Hm. inversion Hm; subst g. exists d0, d1.
    split; [now apply first_core_date_iff|]. split; [|reflexivity].
    now apply first_training_iff.
  - intros (d0 & d1 & Hd0 & Hd1 & ->).
    apply first_core_date_iff in Hd0. apply first_training_iff in Hd1.
    exists ((a, Some d0), (a, Some d1)). cbn [fst snd]. split; [|auto].
    apply in_JOIN. cbn [fst]. rewrite String.eqb_refl. split; [|split; [|reflexivity]].
    + apply in_FirstInitialPurchase. split; [|now symmetry].
      apply first_core_date_defined. eauto.
    + apply in_FirstFollowUp. rewrite Hd0. split; [|now symmetry].
      intros E. rewrite E in Hd1. discriminate.
Qed.

(** ** Days to training *)


(** C7 at the failing input: an average of one day and twelve hours that
    arrives as a Timedelta.  The widget reads its [days] attribute, which
    holds the whole days only, and shows 1.00; the day count of that
    average is 1.5, which the same format shows as 1.50. *)
Theorem timedelta_average_loses_fraction :
  days_of_value day_and_a_half = Some (Finite (inject_Z 1)) /\
  avg_days_text (days_val (mkDF ["avg_days_to_training"] [[day_and_a_half]])) = "1.00" /\
  (inject_Z 129600000000 / inject_Z 86400000000 == 3 # 2)%Q /\
  avg_days_text (Some (Finite (3 # 2))) = "1.50".
Proof.
  split; [reflexivity|]. split; [reflexivity|]. split; reflexivity.
Qed.

(** * Further properties of the script *)

(** ** The other two funnels *)

(** X1. The training-funnel query returns one row for exactly those
    accounts that have a License/Subscription transaction and a Training
    transaction dated strictly after their earliest License/Subscription
    date, with the sum of credit over the account's License/Subscription
    transactions and over its Training transactions after that date; rows
    come by account ascending. *)
Theorem training_funnel_spec (T : Table) :
  (forall row, In row (training T) <->
     exists d0,
       earliest_core T (f_account row) d0 /\
       (exists r, In r T /\ account r = f_account row /\
                  type r = "FME Training" /\ d0 < date r) /\
       total_license_subscription_spend row =
         credit_where (fun r => is_core r && (account r =? f_account row)%string) T /\
       total_follow_up_spend row =
         credit_where (fun r => (account r =? f_account row)%string
                                && (type r =? "FME Training")%string
                                && (d0 <? date r)) T) /\
  NoDup (map f_account (training T)) /\
  Sorted (fun r1 r2 => (f_account r1 <=? f_account r2)%string = true) (training T).
Proof.
  unfold training. split; [|split].
  - intros row. apply funnel_rows.
  - apply funnel_one_row_per_account.
  - apply funnel_sorted.
Qed.

(** X2. The esri-funnel query does the same with Esri Consulting as the
    follow-up type. *)
Theorem esri_funnel_spec (T : Table) :
  (forall row, In row (esri T) <->
     exists d0,
       earliest_core T (f_account row) d0 /\
       (exists r, In r T /\ account r = f_account row /\
                  type r = "Esri Consulting" /\ d0 < date r) /\
       total_license_subscription_spend row =
         credit_where (fun r => is_core r && (account r =? f_account row)%string) T /\
       total_follow_up_spend row =
         credit_where (fun r => (account r =? f_account row)%string
                                && (type r =? "Esri Consulting")%string
                                && (d0 <? date r)) T) /\
  NoDup (map f_account (esri T)) /\
  Sorted (fun r1 r2 => (f_account r1 <=? f_account r2)%string = true) (esri T).
Proof.
  unfold esri. split; [|split].
  - intros row. apply funnel_rows.
  - apply funnel_one_row_per_account.
  - apply funnel_sorted.
Qed.

(** X3. The same account carries the same
    total_license_subscription_spend in whichever funnels it appears. *)
Theorem funnels_agree_on_license_spend (T : Table) (follow1 follow2 : string)
    (row1 row2 : FunnelRow) :
  In row1 (funnel follow1 T) -> In row2 (funnel follow2 T) ->
  f_account row1 = f_account row2 ->
  total_license_subscription_spend row1 = total_license_subscription_spend row2.
Proof.
  intros H1 H2 E.
  apply funnel_rows in H1 as (_ & _ & _ & E1 & _).
  apply funnel_rows in H2 as (_ & _ & _ & E2 & _).
  now rewrite E1, E2, E.
Qed.

Lemma funnels_agree_on_license_spend_witness :
  In (mkFunnel "A" 100 50) (consulting four_service_table) /\
  In (mkFunnel "A" 100 20) (training four_service_table) /\
  total_license_subscription_spend (mkFunnel "A" 100 50)
  = total_license_subscription_spend (mkFunnel "A" 100 20).
Proof.
  assert (H1 : In (mkFunnel "A" 100 50) (consulting four_service_table))
    by (vm_compute; auto).
  assert (H2 : In (mkFunnel "A" 100 20) (training four_service_table))
    by (vm_compute; auto).
  split; [exact H1|]. split; [exact H2|].
  exact (funnels_agree_on_license_spend four_service_table
           "FME Consulting" "FME Training" _ _ H1 H2 eq_refl).
Defined.

(** ** Sums over groups *)

Section GroupSums.
Context {K : Type}.
Variable dec : forall x y : K, {x = y} + {x <> y}.
Variable key : TransactionRecord -> K.

Lemma SUM_map_add (f g : K -> Z) (ks : list K) :
  SUM (map (fun k => f k + g k) ks) = SUM (map f ks) + SUM (map g ks).
Proof. unfold SUM. induction ks as [|k ks IH]; simpl; lia. Qed.

Lemma indicator_sum_absent (k0 : K) (c : Z) (ks : list K) :
  ~ In k0 ks -> SUM (map (fun k => if dec k0 k then c else 0) ks) = 0.
Proof.
  unfold SUM. induction ks as [|k ks IH]; simpl; intros Hn; [reflexivity|].
  destruct (dec k0 k) as [E|_]; [exfalso; apply Hn; now left|].
  rewrite IH; [reflexivity | tauto].
Qed.

Lemma indicator_sum (k0 : K) (c : Z) (ks : list K) :
  NoDup ks -> In k0 ks -> SUM (map (fun k => if dec k0 k then c else 0) ks) = c.
Proof.
  induction ks as [|k ks IH]; intros Hnd Hin; [destruct Hin|].
  inversion Hnd as [|? ? Hk Hnd']; subst.
  change (SUM (map (fun k => if dec k0 k then c else 0) (k :: ks)))
    with ((if dec k0 k then c else 0)
          + SUM (map (fun k => if dec k0 k then c else 0) ks)).
  destruct (dec k0 k) as [E|N].
  - subst k. rewrite (indicator_sum_absent k0 c ks Hk). lia.
  - destruct Hin as [E|Hin]; [congruence|]. rewrite (IH Hnd' Hin). lia.
Qed.

(** Summing each key's rows and then the keys gives the sum of all rows. *)
Lemma sums_by_key (ks : list K) (T : Table) :
  NoDup ks -> (forall r, In r T -> In (key r) ks) ->
  SUM (map (fun k => SUM (map credit
              (filter (fun r => if dec (key r) k then true else false) T))) ks)
  = SUM (map credit T).
Proof.
  intros Hnd. induction T as [|r T IH]; intros Hkeys.
  - clear Hnd Hkeys. unfold SUM. induction ks as [|k ks IHk]; simpl; auto.
  - rewrite (map_ext _ (fun k => (if dec (key r) k then credit r else 0)
                 + SUM (map credit
                     (filter (fun r => if dec (key r) k then true else false) T)))).
    + rewrite SUM_map_add, indicator_sum, IH; auto.
      * intros x Hx. apply Hkeys. now right.
      * apply Hkeys. now left.
    + intros k. simpl. destruct (dec (key r) k); reflexivity.
Qed.

Lemma GROUP_BY_sums (T : Table) :
  SUM (map (fun g => SUM (map credit (snd g))) (GROUP_BY dec key T))
  = SUM (map credit T).
Proof.
  unfold GROUP_BY, DISTINCT. rewrite map_map. cbn [snd].
  apply sums_by_key; [apply NoDup_nodup|].
  intros r Hr. apply nodup_In. now apply in_map.
Qed.

End GroupSums.

(** ** Monthly trend *)

Lemma trend_leb_total (a b : TrendRow) : trend_leb a b = false -> trend_leb b a = true.
Proof.
  unfold trend_leb. rewrite (String.compare_antisym (sales_month b) (sales_month a)).
  destruct (sales_month a ?= sales_month b)%string; simpl;
    try discriminate; try reflexivity.
  apply string_leb_total'.
Qed.

Lemma trend_group (T : Table) (m t : string) :
  filter (fun r => if string_pair_dec (strftime_Y_m (date r), type r) (m, t)
                   then true else false) T
  = filter (fun r => (strftime_Y_m (date r) =? m)%string && (type r =? t)%string) T.
Proof.
  apply filter_ext. intros r.
  destruct (string_pair_dec _ _) as [E|N].
  - inversion E. now rewrite !String.eqb_refl.
  - destruct (String.eqb_spec (strftime_Y_m (date r)) m) as [E1|]; [|reflexivity].
    destruct (String.eqb_spec (type r) t) as [E2|]; [|reflexivity].
    exfalso. apply N. now rewrite E1, E2.
Qed.

(** *** The calendar *)

Lemma date_of_ymd_period (y m d k : Z) :
  date_of_ymd (y + 400 * k) m d = date_of_ymd y m d + 146097 * k.
Proof.
  unfold date_of_ymd.
  set (y0 := if m <=? 2 then y - 1 else y).
  replace (if m <=? 2 then y + 400 * k - 1 else y + 400 * k) with (y0 + k * 400)
    by (unfold y0; destruct (m <=? 2); lia).
  rewrite Z.div_add by lia.
  replace (y0 + k * 400 - (y0 / 400 + k) * 400) with (y0 - y0 / 400 * 400) by lia.
  lia.
Qed.

Lemma year_month_period (z k : Z) :
  year_month_of_date (z + 146097 * k) =
  (fst (year_month_of_date z) + 400 * k, snd (year_month_of_date z)).
Proof.
  unfold year_month_of_date.
  replace (z + 146097 * k + 719468) with (z + 719468 + k * 146097) by lia.
  rewrite Z.div_add by lia.
  replace (z + 719468 + k * 146097 - ((z + 719468) / 146097 + k) * 146097)
    with (z + 719468 - (z + 719468) / 146097 * 146097) by lia.
  cbn [fst snd].
  match goal with |- context [if ?b then _ else _] => destruct b end; f_equal; lia.
Qed.

Lemma leap_year_period (y k : Z) : leap_year (y + 400 * k) = leap_year y.
Proof.
  unfold leap_year.
  replace (y + 400 * k) with (y + (k * 100) * 4) at 1 by lia.
  replace (y + 400 * k) with (y + (k * 4) * 100) at 1 by lia.
  replace (y + 400 * k) with (y + k * 400) by lia.
  now rewrite !Z.mod_add by lia.
Qed.

Lemma in_range (lo n : nat) (z : Z) :
  Z.of_nat lo <= z < Z.of_nat (lo + n) -> In z (range lo n).
Proof.
  intros H. unfold range. apply in_map_iff. exists (Z.to_nat z).
  split; [lia|]. apply in_seq. lia.
Qed.

(** Every day of four hundred years in a row, one whole period of the
    calendar. *)
Lemma round_trip_one_period :
  forallb (fun y => forallb (fun m => forallb (round_trip y m) (range 1 31)) (range 1 12))
          (range 0 400) = true.
Proof. vm_compute. reflexivity. Qed.

(** The day number of a calendar date is read back as the year and the
    month of that date, in every year. *)
Lemma year_month_of_ymd (y m d : Z) :
  1 <= m <= 12 -> 1 <= d <= days_in_month y m ->
  year_month_of_date (date_of_ymd y m d) = (y, m).
Proof.
  intros Hm Hd.
  pose proof (Z.div_mod y 400 ltac:(lia)) as Hy.
  pose proof (Z.mod_pos_bound y 400 ltac:(lia)) as Hb.
  set (y0 := y mod 400) in *. set (k := y / 400) in *.
  assert (Ey : y = y0 + 400 * k) by lia.
  rewrite Ey in Hd |- *. unfold days_in_month in Hd. rewrite leap_year_period in Hd.
  fold (days_in_month y0 m) in Hd.
  rewrite date_of_ymd_period, year_month_period.
  assert (Hd31 : d <= 31).
  { unfold days_in_month in Hd.
    destruct (m =? 2); [destruct (leap_year y0)|destruct (_ || _)]; lia. }
  assert (Iy : In y0 (range 0 400)) by (apply in_range; lia).
  assert (Im : In m (range 1 12)) by (apply in_range; lia).
  assert (Id : In d (range 1 31)) by (apply in_range; lia).
  pose proof (proj1 (forallb_forall _ _) round_trip_one_period y0 Iy) as Wy.
  cbv beta in Wy.
  pose proof (proj1 (forallb_forall _ _) Wy m Im) as Wm. cbv beta in Wm.
  pose proof (proj1 (forallb_forall _ _) Wm d Id) as W.
  unfold round_trip in W. cbv zeta in W.
  apply orb_true_iff in W as [W|W].
  - apply negb_true_iff, Z.leb_gt in W. lia.
  - apply andb_true_iff in W as (W1 & W2).
    apply Z.eqb_eq in W1, W2. rewrite W1, W2. reflexivity.
Qed.

(** X4. The monthly-trend query returns one row for each (month, type)
    pair that some transaction has, with the sum of credit over the
    transactions of that month and type; rows come by month ascending and,
    within a month, by type ascending.  The month of a transaction is the
    year and the month of its calendar date, the year in four digits and
    the month in two: a day of June of the year 50 falls in 0050-06. *)
Theorem monthly_trend_spec (T : Table) :
  (forall row, In row (trends T) <->
     (exists r, In r T /\ strftime_Y_m (date r) = sales_month row
                /\ type r = t_type row) /\
     monthly_revenue row =
       credit_where (fun r => (strftime_Y_m (date r) =? sales_month row)%string
                              && (type r =? t_type row)%string) T) /\
  NoDup (map (fun r => (sales_month r, t_type r)) (trends T)) /\
  Sorted (fun a b =>
            (sales_month a <? sales_month b)%string = true \/
            (sales_month a = sales_month b /\ (t_type a <=? t_type b)%string = true))
         (trends T) /\
  (forall y m d, 1 <= y <= 9999 -> 1 <= m <= 12 -> 1 <= d <= days_in_month y m ->
     strftime_Y_m (date_of_ymd y m d)
     = zero_pad 4 (decimal y) ++ "-" ++ zero_pad 2 (decimal m)) /\
  strftime_Y_m (date_of_ymd 50 6 15) = "0050-06" /\
  trends example_table =
    [ mkTrend "2023-01" "FME Licenses" 100;
      mkTrend "2023-01" "FME Subscription" 200;
      mkTrend "2023-02" "FME Consulting" 50 ].
Proof.
  unfold trends. split; [|split; [|split; [|split; [|split; [reflexivity|reflexivity]]]]];
    cycle 3.
  { intros y m d _ Hm Hd. unfold strftime_Y_m.
    now rewrite (year_month_of_ymd y m d Hm Hd). }
  - intros row. split.
    + intros H. apply (Permutation_in _ (Permutation_sym (ORDER_BY_perm _ _))) in H.
      apply in_map_iff in H as ([[m t] g] & <- & H). cbn [fst snd sales_month t_type
        monthly_revenue]. apply in_GROUP_BY in H as (Hk & ->).
      apply in_map_iff in Hk as (r & E & Hr). inversion E; subst.
      split; [exists r; auto|]. unfold credit_where. now rewrite trend_group.
    + intros ((r & Hr & Em & Et) & Hs). apply (Permutation_in _ (ORDER_BY_perm _ _)).
      apply in_map_iff. eexists ((sales_month row, t_type row), _). split; cycle 1.
      * apply in_GROUP_BY. split; [|reflexivity]. apply in_map_iff.
        exists r. rewrite Em, Et. auto.
      * cbn [fst snd]. rewrite trend_group. unfold credit_where in Hs.
        rewrite <- Hs. now destruct row.
  - eapply Permutation_NoDup; [apply Permutation_map, ORDER_BY_perm|].
    rewrite map_map. cbn [sales_month t_type].
    rewrite (map_ext _ fst) by (now intros [[m t] g]).
    apply (GROUP_BY_NoDup string_pair_dec).
  - eapply Sorted_ind with (P := fun l => Sorted _ l);
      [constructor| |apply (ORDER_BY_sorted _ trend_leb_total)].
    intros a l _ IH Hhd. constructor; [exact IH|].
    destruct Hhd as [|b l' Hab]; constructor.
    unfold trend_leb, String.ltb in *.
    destruct (sales_month a ?= sales_month b)%string eqn:E; try discriminate; auto.
    right. split; [now apply String.compare_eq_iff | assumption].
Qed.

(** X5. The monthly revenues of the trend query add up to the credit of
    all transactions: grouping by month and type loses nothing and counts
    nothing twice. *)
Theorem monthly_trend_conserves_revenue (T : Table) :
  SUM (map monthly_revenue (trends T)) = SUM (map credit T).
Proof.
  unfold trends.
  rewrite <- (SUM_perm _ _ (Permutation_map monthly_revenue (ORDER_BY_perm _ _))).
  rewrite map_map. cbn [monthly_revenue]. apply GROUP_BY_sums.
Qed.

(** ** Revenue concentration: totals *)

Lemma revcon_rows_in_totals (T : Table) (row : RevconRow) :
  In row (revcon_rows T) ->
  In (r_account row, total_revenue row) (CustomerTotalRevenue T).
Proof.
  unfold revcon_rows, RunningTotal. rewrite map_map, in_map_iff.
  intros ([a s] & <- & Hin). exact Hin.
Qed.

Lemma in_CustomerTotalRevenue (T : Table) (a : string) (s : Z) :
  In (a, s) (CustomerTotalRevenue T) ->
  s = credit_where (fun r => (account r =? a)%string) T.
Proof.
  unfold CustomerTotalRevenue, credit_where. rewrite in_map_iff.
  intros ([k g] & E & Hin). simpl in E. inversion E; subst.
  apply in_GROUP_BY in Hin as (_ & ->). do 2 f_equal.
  apply filter_ext. intros r.
  destruct (string_dec (account r) a) as [->|N].
  - now rewrite String.eqb_refl.
  - apply String.eqb_neq in N. now rewrite N.
Qed.

Lemma CustomerTotalRevenue_sum (T : Table) :
  SUM (map snd (CustomerTotalRevenue T)) = SUM (map credit T).
Proof.
  unfold CustomerTotalRevenue. rewrite map_map. cbn [snd].
  apply (GROUP_BY_sums string_dec account).
Qed.

(** X6. Every output of the revenue-concentration query has one row per
    account that occurs in the table; total_revenue is the sum of credit
    over all of the account's transactions, of every type; the total
    revenues add up to the credit of the whole table, and that sum is the
    cumulative_revenue of the last row. *)
Theorem revcon_totals_spec (T : Table) (out : list RevconRow)
    (Hout : revcon_output T out) :
  NoDup (map r_account out) /\
  (forall a, In a (map r_account out) <-> exists r, In r T /\ account r = a) /\
  (forall row, In row out ->
     total_revenue row = credit_where (fun r => (account r =? r_account row)%string) T) /\
  SUM (map total_revenue out) = SUM (map credit T) /\
  (forall pre row, out = (pre ++ [row])%list ->
     cumulative_revenue row = SUM (map credit T)).
Proof.
  pose proof (revcon_output_strongly_sorted T out Hout) as Hs.
  destruct Hout as (Hp & _).
  assert (Hacc : Permutation (map fst (CustomerTotalRevenue T)) (map r_account out)).
  { rewrite <- revcon_rows_accounts. now apply Permutation_map. }
  assert (Hkeys : map fst (CustomerTotalRevenue T) = nodup string_dec (map account T)).
  { unfold CustomerTotalRevenue. rewrite map_map. cbn [fst].
    apply (GROUP_BY_keys string_dec account). }
  split; [|split; [|split; [|split]]].
  - eapply Permutation_NoDup; [exact Hacc|]. rewrite Hkeys. apply NoDup_nodup.
  - intros a. split.
    + intros H. apply (Permutation_in _ (Permutation_sym Hacc)) in H.
      rewrite Hkeys in H. apply nodup_In, in_map_iff in H as (r & E & Hr). eauto.
    + intros (r & Hr & E). apply (Permutation_in _ Hacc). rewrite Hkeys.
      apply nodup_In. rewrite <- E. now apply in_map.
  - intros row Hin. apply (Permutation_in _ (Permutation_sym Hp)) in Hin.
    now apply in_CustomerTotalRevenue, revcon_rows_in_totals.
  - rewrite <- (SUM_perm _ _ (Permutation_map total_revenue Hp)).
    rewrite revcon_rows_totals. apply CustomerTotalRevenue_sum.
  - intros pre row E.
    assert (Hin : In row out) by (rewrite E; apply in_or_app; right; now left).
    rewrite (revcon_rows_cumulative T row)
      by (now apply (Permutation_in _ (Permutation_sym Hp))).
    rewrite frame_sum_all; [apply CustomerTotalRevenue_sum|].
    intros x Hx. rewrite <- revcon_rows_totals in Hx.
    apply in_map_iff in Hx as (r & <- & Hr).
    apply (strongly_sorted_last out pre row Hs E).
    now apply (Permutation_in _ Hp).
Qed.

Lemma revcon_totals_spec_witness :
  revcon_output example_table (revcon example_table) /\
  SUM (map total_revenue (revcon example_table)) = SUM (map credit example_table).
Proof.
  split; [apply revcon_is_output|].
  apply (revcon_totals_spec example_table (revcon example_table)
           (revcon_is_output example_table)).
Defined.

(** ** Service basket: counts *)

(** X7. Every row of a service-basket output counts at least one customer,
    and no more than there are distinct accounts in the table. *)
Theorem basket_counts_bounded (T : Table) (out : list BasketRow)
    (Hout : basket_output T out) (row : BasketRow) (Hrow : In row out) :
  1 <= number_of_customers row <=
    Z.of_nat (List.length (nodup string_dec (map account T))).
Proof.
  destruct Hout as (Hp & _).
  apply (Permutation_in _ (Permutation_sym Hp)), in_basket_rows in Hrow
    as (Hlt & (a & Ha1 & Ha2) & ->).
  unfold COUNT. split.
  - assert (Hin : In a (DISTINCT string_dec
              (map (fun p : TransactionRecord * TransactionRecord => account (fst p))
                 (filter (fun p => if string_pair_dec (type (fst p), type (snd p))
                                        (service_1 row, service_2 row)
                                   then true else false)
                    (JOIN (fun a1 a2 => (account a1 =? account a2)%string
                                        && (type a1 <? type a2)%string) T T)))))
      by (apply basket_group_accounts; auto).
    destruct (DISTINCT _ _); [destruct Hin | simpl; lia].
  - apply inj_le. apply NoDup_incl_length; [apply NoDup_nodup|].
    intros b Hb. apply basket_group_accounts in Hb as (_ & (r & Hr & E & _) & _).
    apply nodup_In. rewrite <- E. now apply in_map.
Qed.

Lemma basket_counts_bounded_witness :
  In (mkBasket "FME Consulting" "FME Licenses" 1) (basket example_table) /\
  1 <= 1 <= Z.of_nat (List.length (nodup string_dec (map account example_table))).
Proof.
  assert (Hin : In (mkBasket "FME Consulting" "FME Licenses" 1) (basket example_table))
    by (vm_compute; auto).
  split; [exact Hin|].
  exact (basket_counts_bounded example_table (basket example_table)
           (basket_is_output example_table) _ Hin).
Defined.

(** ** Time to training and the training funnel *)

Lemma follow_up_needs_core (follow : string) (T : Table) (a : string) :
  filter (fun r => (account r =? a)%string && (type r =? follow)%string
                   && gt_nullable (date r) (first_core_date T a)) T <> [] ->
  exists d0, first_core_date T a = Some d0.
Proof.
  intros Hne. destruct (first_core_date T a) as [d0|]; [eauto|].
  exfalso. apply Hne. apply filter_none. intros r _. simpl. apply andb_false_r.
Qed.

Lemma funnel_nonempty_iff (follow : string) (T : Table) :
  funnel follow T <> [] <->
  exists a, filter (fun r => (account r =? a)%string && (type r =? follow)%string
                             && gt_nullable (date r) (first_core_date T a)) T <> [].
Proof.
  split.
  - intros Hne. destruct (funnel follow T) as [|row rows] eqn:E; [congruence|].
    assert (Hin : In row (funnel follow T)) by (rewrite E; now left).
    apply in_funnel in Hin as (_ & Hf). apply in_FollowUpSpend in Hf as (Hf & _).
    eauto.
  - intros (a & Ha) E.
    assert (Hin : In (mkFunnel a
                        (credit_where (fun r => is_core r && (account r =? a)%string) T)
                        (credit_where
                           (fun r => (account r =? a)%string && (type r =? follow)%string
                                     && gt_nullable (date r) (first_core_date T a)) T))
                     (funnel follow T)).
    { apply in_funnel. cbn [f_account total_license_subscription_spend
                             total_follow_up_spend]. split.
      - apply in_InitialSpend. split; [|reflexivity].
        apply first_core_date_defined. now apply (follow_up_needs_core follow).
      - apply in_FollowUpSpend. auto. }
    rewrite E in Hin. exact Hin.
Qed.

Lemma AVG_none (xs : list Z) : AVG xs = None <-> xs = [].
Proof. destruct xs; simpl; split; congruence. Qed.

Lemma timetosvc_defined_iff (T : Table) :
  timetosvc T <> None <->
  exists a, filter (fun r => (account r =? a)%string && (type r =? "FME Training")%string
                             && gt_nullable (date r) (first_core_date T a)) T <> [].
Proof.
  destruct (timetosvc_gaps T
              (JOIN (fun fp ff => (fst fp =? fst ff)%string)
                    (FirstPurchase T) (FirstFollowUp T)))
    as (gaps & _ & Hin & Hsum).
  { apply JOIN_on_key_NoDup; [apply FirstInitialPurchase_NoDup | apply FirstFollowUp_NoDup]. }
  unfold timetosvc. rewrite Hsum, AVG_none. split.
  - intros Hne. destruct gaps as [|[a g] gaps]; [simpl in Hne; congruence|].
    destruct (proj1 (Hin a g) (or_introl eq_refl)) as ([[k od0] [k' od1]] & Hp & _ & _).
    apply in_JOIN in Hp as (_ & Hff & _).
    apply in_FirstFollowUp in Hff as (Hff & _). eauto.
  - intros (a & Ha) E.
    destruct (follow_up_needs_core "FME Training" T a Ha) as (d0 & Hd0).
    destruct (MIN (map date
                (filter (fun r => (account r =? a)%string
                                  && (type r =? "FME Training")%string
                                  && gt_nullable (date r) (first_core_date T a)) T)))
      as [d1|] eqn:Hd1.
    + assert (Hg : In (a, d1 - d0) gaps).
      { apply Hin. exists ((a, Some d0), (a, Some d1)). cbn [fst snd].
        split; [|auto]. apply in_JOIN. cbn [fst]. rewrite String.eqb_refl.
        split; [|split; [|reflexivity]].
        - apply in_FirstInitialPurchase. split; [|now symmetry].
          apply first_core_date_defined. eauto.
        - apply in_FirstFollowUp. split; [assumption | now symmetry]. }
      apply map_eq_nil in E.
      rewrite E in Hg. exact Hg.
    + apply MIN_none, map_eq_nil in Hd1. contradiction.
Qed.

(** X8. The time-to-training scalar is NULL exactly when the training
    funnel has no row: both queries qualify an account by a Training
    transaction after its earliest core purchase. *)
Theorem timetosvc_null_iff_no_training_funnel (T : Table) :
  timetosvc T = None <-> training T = [].
Proof.
  unfold training. split.
  - intros Hn. destruct (funnel "FME Training" T) as [|row rows] eqn:E; [reflexivity|].
    exfalso. assert (Hne : funnel "FME Training" T <> []) by (rewrite E; discriminate).
    apply funnel_nonempty_iff in Hne. apply timetosvc_defined_iff in Hne. contradiction.
  - intros Hn. destruct (timetosvc T) as [q|] eqn:E; [|reflexivity].
    exfalso. assert (Hne : timetosvc T <> None) by (rewrite E; discriminate).
    apply timetosvc_defined_iff, funnel_nonempty_iff in Hne. contradiction.
Qed.

(** ** The charts *)









(** ** The two metrics *)




(** X12. From a Timedelta the time-to-training widget takes the whole days
    rounded down: the value shown is the largest whole number of days that
    does not exceed the duration. *)
Theorem timedelta_days_round_down (micros : Z) :
  exists d,
    days_of_value (Timedelta micros) = Some (Finite (inject_Z d)) /\
    d * 86400000000 <= micros < (d + 1) * 86400000000.
Proof.
  exists (micros / 86400000000). split; [reflexivity|].
  pose proof (Z.div_mod micros 86400000000 ltac:(lia)) as Hdm.
  pose proof (Z.mod_pos_bound micros 86400000000 ltac:(lia)) as Hb.
  lia.
Qed.

(** ** Runs that end early, and runs that do not *)


